(** * DriveSafe UK backend: report lifecycle engine and proximity queries

    A shallow embedding of [backend/server.py]: the geo helpers
    ([haversine_distance], [get_bounding_box]), the settings lookup, the
    report submission handler ([create_report]) and the two proximity
    queries ([get_nearby_cameras], [get_nearby_reports]).

    Modelling conventions.
    - Python [float] is idealised as a real number ([R]); [math.sin],
      [math.cos], [math.sqrt] are the functions of the Reals library and
      [math.atan2] is spelled out below.  Rounding error of binary64 is not
      modelled; a [timedelta] divided by sixty seconds is the exact ratio.
      The one effect of rounding on control flow, the [ValueError] of
      [math.sqrt], is kept in module [Partial].
    - [datetime] is an integer count of microseconds (the resolution of
      Python's [datetime]); a [timedelta] is a signed count of microseconds.
    - Python [int] is [Z].
    - A MongoDB collection is the list of its documents in natural
      (insertion) order; [find] keeps that order, [find_one] returns the
      first match, [insert_one] appends, [update_one] rewrites the first
      match.  The store-assigned [_id] of a document takes no part in any
      decision and is left out.
    - The handlers are [async] but each one is modelled as a single
      sequential transaction on the database value. *)

From Stdlib Require Import ZArith List String Ascii Bool Lia.
From Stdlib Require Import Reals Lra Psatz.
From Stdlib Require Import Sorting.Sorted Sorting.Permutation.
From Stdlib Require Import Numbers.DecimalString.
Import ListNotations.

Local Open Scope string_scope.
Local Open Scope list_scope.
Local Open Scope Z_scope.

(** ** Time *)

Definition datetime := Z.
Definition timedelta := Z.

Definition MICROS_PER_MINUTE : Z := 60000000.

(** [timedelta(minutes=m)] *)
Definition timedelta_minutes (m : Z) : timedelta := m * MICROS_PER_MINUTE.

(** [int(td.total_seconds() / 60)]: [int] truncates toward zero. *)
Definition whole_minutes (td : timedelta) : Z := Z.quot td MICROS_PER_MINUTE.

(** [round(n / d)] for an exact ratio with [d > 0]: Python rounds to the
    nearest integer and sends ties to the even neighbour. *)
Definition round_half_even_ratio (n d : Z) : Z :=
  let q := n / d in
  let r := n mod d in
  if 2 * r <? d then q
  else if d <? 2 * r then q + 1
  else if Z.even q then q else q + 1.

(** [round(td.total_seconds() / 60)] *)
Definition round_minutes (td : timedelta) : Z :=
  round_half_even_ratio td MICROS_PER_MINUTE.

(** ** Strings *)

(** [str(n)] for an [int] *)
Definition str_of_int (n : Z) : string := NilZero.string_of_int (Z.to_int n).

(** [s.replace(old, new)] for one-character [old] and [new] *)
Fixpoint replace_char (old new : ascii) (s : string) : string :=
  match s with
  | EmptyString => EmptyString
  | String c rest =>
      String (if Ascii.eqb c old then new else c) (replace_char old new rest)
  end.

(** ** Real-valued comparisons as booleans *)

Definition Rleb (x y : R) : bool := if Rle_dec x y then true else false.
Definition Rltb (x y : R) : bool := if Rlt_dec x y then true else false.

(** ** Models *)

Module SpeedCamera.
Record t := mk {
  id : string;
  latitude : R;
  longitude : R;
  camera_type : string;
  road_name : option string;
  speed_limit : option Z;
  direction : option string;
  confidence : Z;
  last_verified : datetime;
  is_active : bool;
  created_at : datetime
}.
End SpeedCamera.

Module CommunityReport.
Record t := mk {
  id : string;
  latitude : R;
  longitude : R;
  report_type : string;
  user_id : string;
  confirmations : Z;
  created_at : datetime;
  expires_at : datetime;
  is_active : bool
}.

(** [{'$inc': {'confirmations': 1}}] *)
Definition inc_confirmations (d : t) : t :=
  mk (id d) (latitude d) (longitude d) (report_type d) (user_id d)
     (confirmations d + 1) (created_at d) (expires_at d) (is_active d).
End CommunityReport.

Module CommunityReportCreate.
Record t := mk {
  latitude : R;
  longitude : R;
  report_type : string;
  user_id : string
}.
End CommunityReportCreate.

Module ReportResponse.
Record t := mk {
  success : bool;
  message : string;
  report_id : option string
}.
End ReportResponse.

Module AppSettings.
Record t := mk {
  id : string;
  mobile_camera_ttl_minutes : Z;
  police_check_ttl_minutes : Z;
  duplicate_radius_meters : Z;
  duplicate_time_window_minutes : Z;
  rate_limit_minutes : Z
}.

(** [AppSettings()]: every field at its declared default; the identifier
  comes from [uuid.uuid4()]. *)
Definition defaults (fresh_id : string) : t := mk fresh_id 75 52 200 15 5.
End AppSettings.

(** ** Helper functions *)

Section GeoMath.
Local Open Scope R_scope.

(** [math.radians] *)
Definition radians (deg : R) : R := deg * PI / 180.

(** [math.atan2(y, x)]; the signed-zero refinements of IEEE are not
  represented. *)
Definition atan2 (y x : R) : R :=
  if Rlt_dec 0 x then atan (y / x)
  else if Rlt_dec x 0 then
    if Rle_dec 0 y then atan (y / x) + PI else atan (y / x) - PI
  else if Rlt_dec 0 y then PI / 2
  else if Rlt_dec y 0 then - (PI / 2)
  else 0.

Definition EARTH_RADIUS : R := 6371000.

(** The quantity [a] of [haversine_distance]. *)
Definition haversine_a (lat1 lon1 lat2 lon2 : R) : R :=
  let phi1 := radians lat1 in
  let phi2 := radians lat2 in
  let delta_phi := radians (lat2 - lat1) in
  let delta_lambda := radians (lon2 - lon1) in
  (sin (delta_phi / 2)) ^ 2 + cos phi1 * cos phi2 * (sin (delta_lambda / 2)) ^ 2.

(** The value that [haversine_distance] returns, in exact arithmetic.  The
  call can also raise; see [Partial.haversine_distance]. *)
Definition haversine_distance (lat1 lon1 lat2 lon2 : R) : R :=
  let a := haversine_a lat1 lon1 lat2 lon2 in
  let c := 2 * atan2 (sqrt a) (sqrt (1 - a)) in
  EARTH_RADIUS * c.

Record BoundingBox := mkBox {
  min_lat : R;
  max_lat : R;
  min_lon : R;
  max_lon : R
}.

(** At a latitude of exactly 90 or -90 degrees the cosine is 0 over the
  reals, where binary64 gives about 6.1e-17; the division then yields 0
  here and a very large half-width there.  The statements below that
  use the box at such a latitude hold for both. *)
Definition get_bounding_box (lat lon radius_km : R) : BoundingBox :=
  let lat_delta := radius_km / 111 in
  let lon_delta := radius_km / (111 * cos (radians lat)) in
  mkBox (lat - lat_delta) (lat + lat_delta) (lon - lon_delta) (lon + lon_delta).

(** [{'latitude': {'$gte': min_lat, '$lte': max_lat},
    'longitude': {'$gte': min_lon, '$lte': max_lon}}] *)
Definition in_box (bbox : BoundingBox) (lat lon : R) : bool :=
  Rleb (min_lat bbox) lat && Rleb lat (max_lat bbox)
  && Rleb (min_lon bbox) lon && Rleb lon (max_lon bbox).

(** [round(x)] on a float: nearest integer, ties to even. *)
Definition py_round (x : R) : Z :=
  let f := Int_part x in
  let d := x - IZR f in
  if Rlt_dec d (1 / 2) then f
  else if Rlt_dec (1 / 2) d then (f + 1)%Z
  else if Z.even f then f else (f + 1)%Z.
End GeoMath.

(** ** The database *)

Section Collections.
Context {A : Type}.

(** [coll.find(q)]: the matching documents, in natural order. *)
Definition find (q : A -> bool) (coll : list A) : list A := filter q coll.

(** [cursor.to_list(n)] *)
Definition to_list (n : nat) (cursor : list A) : list A := firstn n cursor.

(** [coll.find_one(q)]: the first matching document, if any. *)
Fixpoint find_one (q : A -> bool) (coll : list A) : option A :=
  match coll with
  | [] => None
  | d :: rest => if q d then Some d else find_one q rest
  end.

(** [coll.update_one(q, u)]: only the first matching document changes. *)
Fixpoint update_one (q : A -> bool) (u : A -> A) (coll : list A) : list A :=
  match coll with
  | [] => []
  | d :: rest => if q d then u d :: rest else d :: update_one q u rest
  end.

(** [coll.insert_one(d)] *)
Definition insert_one (d : A) (coll : list A) : list A := coll ++ [d].
End Collections.

Record DB := mkDB {
  cameras : list SpeedCamera.t;
  reports : list CommunityReport.t;
  settings : list AppSettings.t
}.

Definition set_reports (db : DB) (rs : list CommunityReport.t) : DB :=
  mkDB (cameras db) rs (settings db).

(** [get_settings]: the stored document, or the defaults when the
    collection is empty. *)
Definition get_settings (db : DB) (fresh_id : string) : AppSettings.t :=
  match find_one (fun _ => true) (settings db) with
  | Some settings_doc => settings_doc
  | None => AppSettings.defaults fresh_id
  end.

(** ** Community report submission *)

(** What a request reads from its environment: the wall clock at the top of
    the handler, and the values of the default factories of a freshly
    constructed [CommunityReport] ([uuid.uuid4()], a second
    [datetime.utcnow()]) and [AppSettings]. *)
Record Env := mkEnv {
  now : datetime;
  fresh_report_id : string;
  fresh_created_at : datetime;
  fresh_settings_id : string
}.

Section CreateReport.
Import CommunityReport.

(** [{'user_id': ..., 'report_type': ...,
    'created_at': {'$gte': now - timedelta(minutes=rate_limit_minutes)}}] *)
Definition rate_limit_query (report : CommunityReportCreate.t) (now : datetime)
    (st : AppSettings.t) (d : CommunityReport.t) : bool :=
  String.eqb (user_id d) (CommunityReportCreate.user_id report)
  && String.eqb (report_type d) (CommunityReportCreate.report_type report)
  && (now - timedelta_minutes (AppSettings.rate_limit_minutes st) <=? created_at d).

(** [{'report_type': ..., 'is_active': True, 'expires_at': {'$gt': now},
    'created_at': {'$gte': now - timedelta(minutes=duplicate_time_window_minutes)}}] *)
Definition duplicate_query (report : CommunityReportCreate.t) (now : datetime)
    (st : AppSettings.t) (d : CommunityReport.t) : bool :=
  String.eqb (report_type d) (CommunityReportCreate.report_type report)
  && Bool.eqb (is_active d) true
  && (now <? expires_at d)
  && (now - timedelta_minutes (AppSettings.duplicate_time_window_minutes st)
      <=? created_at d).

(** The test of the merge loop:
  [haversine_distance(report, existing) <= duplicate_radius_meters]. *)
Definition within_duplicate_radius (report : CommunityReportCreate.t)
    (st : AppSettings.t) (existing : CommunityReport.t) : bool :=
  Rleb (haversine_distance
          (CommunityReportCreate.latitude report)
          (CommunityReportCreate.longitude report)
          (latitude existing) (longitude existing))
       (IZR (AppSettings.duplicate_radius_meters st)).

(** The [for existing in existing_reports] loop up to its [return]: the
  first candidate under the radius, if there is one. *)
Fixpoint first_duplicate (report : CommunityReportCreate.t) (st : AppSettings.t)
    (existing_reports : list CommunityReport.t) : option CommunityReport.t :=
  match existing_reports with
  | [] => None
  | existing :: rest =>
      if within_duplicate_radius report st existing then Some existing
      else first_duplicate report st rest
  end.

Definition rate_limit_message (wait_time : Z) (rtype : string) : string :=
  ("Please wait " ++ str_of_int wait_time
     ++ " more minutes before reporting another "
     ++ replace_char "_"%char " "%char rtype)%string.

Definition confirmed_message (n : Z) : string :=
  ("Confirmed! " ++ str_of_int n ++ " users have reported this.")%string.

Definition ttl_minutes (report : CommunityReportCreate.t) (st : AppSettings.t) : Z :=
  if String.eqb (CommunityReportCreate.report_type report) "mobile_camera"
  then AppSettings.mobile_camera_ttl_minutes st
  else AppSettings.police_check_ttl_minutes st.

(** The [CommunityReport] built from the fields of the payload and
  [expires_at]; [confirmations] and [is_active] take their defaults. *)
Definition new_report (env : Env) (report : CommunityReportCreate.t)
    (st : AppSettings.t) : CommunityReport.t :=
  CommunityReport.mk
    (fresh_report_id env)
    (CommunityReportCreate.latitude report)
    (CommunityReportCreate.longitude report)
    (CommunityReportCreate.report_type report)
    (CommunityReportCreate.user_id report)
    1
    (fresh_created_at env)
    (now env + timedelta_minutes (ttl_minutes report st))
    true.

(** The handler in the real-number reading, where no distance raises: what
  it returns whenever it returns.  [Partial.create_report] is the handler
  with the exception. *)
Definition create_report (env : Env) (db : DB) (report : CommunityReportCreate.t)
    : DB * ReportResponse.t :=
  let st := get_settings db (fresh_settings_id env) in
  let now := now env in
  match find_one (rate_limit_query report now st) (reports db) with
  | Some recent_report =>
      let wait_time :=
        AppSettings.rate_limit_minutes st
        - whole_minutes (now - created_at recent_report) in
      (db,
       ReportResponse.mk false
         (rate_limit_message wait_time (CommunityReportCreate.report_type report))
         None)
  | None =>
      let existing_reports :=
        to_list 100 (find (duplicate_query report now st) (reports db)) in
      match first_duplicate report st existing_reports with
      | Some existing =>
          (set_reports db
             (update_one (fun d => String.eqb (id d) (id existing))
                         inc_confirmations (reports db)),
           ReportResponse.mk true
             (confirmed_message (confirmations existing + 1))
             (Some (id existing)))
      | None =>
          let report_obj := new_report env report st in
          (set_reports db (insert_one report_obj (reports db)),
           ReportResponse.mk true "Reported. Thanks!" (Some (id report_obj)))
      end
  end.
End CreateReport.

(** ** Proximity queries *)

(** Stable sort by an integer key, as [list.sort(key=...)]. *)
Section SortByKey.
Context {A : Type} (key : A -> Z).

Fixpoint insert_by_key (x : A) (l : list A) : list A :=
  match l with
  | [] => [x]
  | y :: rest =>
      if key x <=? key y then x :: l else y :: insert_by_key x rest
  end.

Fixpoint sort_by_key (l : list A) : list A :=
  match l with
  | [] => []
  | x :: rest => insert_by_key x (sort_by_key rest)
  end.
End SortByKey.

(** A camera document as returned: the stored fields plus
    [distance_meters]. *)
Record NearbyCamera := mkNearbyCamera {
  nc_camera : SpeedCamera.t;
  nc_distance_meters : Z
}.

(** A report document as returned: the stored fields plus
    [distance_meters] and [expires_in_minutes]. *)
Record NearbyReport := mkNearbyReport {
  nr_report : CommunityReport.t;
  nr_distance_meters : Z;
  nr_expires_in_minutes : Z
}.

Section Nearby.
Variables (lat lon radius_km : R).

Definition camera_box_query (bbox : BoundingBox) (cam : SpeedCamera.t) : bool :=
  in_box bbox (SpeedCamera.latitude cam) (SpeedCamera.longitude cam)
  && Bool.eqb (SpeedCamera.is_active cam) true.

Definition camera_distance (cam : SpeedCamera.t) : R :=
  haversine_distance lat lon (SpeedCamera.latitude cam) (SpeedCamera.longitude cam).

(** The body of the [for cam in cameras] loop. *)
Fixpoint collect_cameras (cams : list SpeedCamera.t) : list NearbyCamera :=
  match cams with
  | [] => []
  | cam :: rest =>
      let distance := camera_distance cam in
      if Rleb distance (radius_km * 1000)
      then mkNearbyCamera cam (py_round distance) :: collect_cameras rest
      else collect_cameras rest
  end.

(** The handler in the real-number reading; [Partial.get_nearby_cameras] is
  the handler with the exception. *)
Definition get_nearby_cameras (db : DB) : list NearbyCamera :=
  let bbox := get_bounding_box lat lon radius_km in
  let cams := to_list 1000 (find (camera_box_query bbox) (cameras db)) in
  sort_by_key nc_distance_meters (collect_cameras cams).

Definition report_box_query (bbox : BoundingBox) (now : datetime)
    (r : CommunityReport.t) : bool :=
  in_box bbox (CommunityReport.latitude r) (CommunityReport.longitude r)
  && Bool.eqb (CommunityReport.is_active r) true
  && (now <? CommunityReport.expires_at r).

Definition report_distance (r : CommunityReport.t) : R :=
  haversine_distance lat lon (CommunityReport.latitude r) (CommunityReport.longitude r).

(** The body of the [for report in reports] loop. *)
Fixpoint collect_reports (now : datetime) (rs : list CommunityReport.t)
    : list NearbyReport :=
  match rs with
  | [] => []
  | r :: rest =>
      let distance := report_distance r in
      if Rleb distance (radius_km * 1000)
      then mkNearbyReport r (py_round distance)
             (round_minutes (CommunityReport.expires_at r - now))
           :: collect_reports now rest
      else collect_reports now rest
  end.

(** The handler in the real-number reading; [Partial.get_nearby_reports] is
  the handler with the exception. *)
Definition get_nearby_reports (now : datetime) (db : DB) : list NearbyReport :=
  let bbox := get_bounding_box lat lon radius_km in
  let rs := to_list 500 (find (report_box_query bbox now) (reports db)) in
  sort_by_key nr_distance_meters (collect_reports now rs).
End Nearby.

(** ** Settings, camera administration and the combined query *)

(** [coll.replace_one(q, doc, upsert=True)]: the first match is replaced by
    [doc]; without a match [doc] is inserted. *)
Definition replace_one_upsert {A : Type} (q : A -> bool) (doc : A) (coll : list A)
    : list A :=
  match find_one q coll with
  | Some _ => update_one q (fun _ => doc) coll
  | None => insert_one doc coll
  end.

(** [coll.delete_many(q)] *)
Definition delete_many {A : Type} (q : A -> bool) (coll : list A) : list A :=
  filter (fun d => negb (q d)) coll.

(** [update_settings]: the handler answers with the settings it stored. *)
Definition update_settings (db : DB) (new_settings : AppSettings.t)
    : DB * AppSettings.t :=
  (mkDB (cameras db) (reports db)
        (replace_one_upsert (fun _ => true) new_settings (settings db)),
   new_settings).

(** [get_app_settings] *)
Definition get_app_settings (db : DB) (fresh_id : string) : AppSettings.t :=
  get_settings db fresh_id.

Module SpeedCameraCreate.
Record t := mk {
  latitude : R;
  longitude : R;
  camera_type : string;
  road_name : option string;
  speed_limit : option Z;
  direction : option string
}.
End SpeedCameraCreate.

(** The values of the default factories of a freshly constructed
    [SpeedCamera]: [uuid.uuid4()] and two readings of [datetime.utcnow()]. *)
Record CameraEnv := mkCameraEnv {
  fresh_camera_id : string;
  fresh_last_verified : datetime;
  fresh_camera_created_at : datetime
}.

(** The [SpeedCamera] built from the fields of a payload; [confidence] and
    [is_active] take their defaults. *)
Definition new_camera (cenv : CameraEnv) (camera : SpeedCameraCreate.t)
    : SpeedCamera.t :=
  SpeedCamera.mk
    (fresh_camera_id cenv)
    (SpeedCameraCreate.latitude camera)
    (SpeedCameraCreate.longitude camera)
    (SpeedCameraCreate.camera_type camera)
    (SpeedCameraCreate.road_name camera)
    (SpeedCameraCreate.speed_limit camera)
    (SpeedCameraCreate.direction camera)
    100
    (fresh_last_verified cenv)
    true
    (fresh_camera_created_at cenv).

Definition create_camera (cenv : CameraEnv) (db : DB) (camera : SpeedCameraCreate.t)
    : DB * SpeedCamera.t :=
  let camera_obj := new_camera cenv camera in
  (mkDB (insert_one camera_obj (cameras db)) (reports db) (settings db),
   camera_obj).

(** The bound of [to_list(10000)], written as a product. *)
Definition ALL_CAMERAS_LIMIT : nat := 100 * 100.

Definition get_all_cameras (db : DB) : list SpeedCamera.t :=
  to_list ALL_CAMERAS_LIMIT
    (find (fun cam => Bool.eqb (SpeedCamera.is_active cam) true) (cameras db)).

(** [get_all_nearby]: the two proximity queries side by side; the clock is
    read by the report query. *)
Definition get_all_nearby (lat lon radius_km : R) (now : datetime) (db : DB)
    : list NearbyCamera * list NearbyReport :=
  let cams := get_nearby_cameras lat lon radius_km db in
  let reps := get_nearby_reports lat lon radius_km now db in
  (cams, reps).

(** The entries of [sample_cameras]; none of them gives a [direction]. *)
Definition sample_camera (lat lon : R) (ctype road : string) (limit : Z)
    : SpeedCameraCreate.t :=
  SpeedCameraCreate.mk lat lon ctype (Some road) (Some limit) None.

Definition sample_cameras : list SpeedCameraCreate.t :=
  [ sample_camera 51.5074%R (-0.1278)%R "fixed" "A4 Cromwell Road" 30;
    sample_camera 51.5155%R (-0.1419)%R "fixed" "A40 Marylebone Road" 40;
    sample_camera 51.4924%R (-0.1917)%R "red_light" "A4 Earl's Court Road" 30;
    sample_camera 51.5267%R (-0.0873)%R "fixed" "A10 City Road" 30;
    sample_camera 51.4818%R (-0.1252)%R "average_speed_start" "A3 Brixton Road" 30;
    sample_camera 51.4695%R (-0.1161)%R "average_speed_end" "A3 Brixton Road" 30;
    sample_camera 51.6835%R 0.0342%R "average_speed_start" "M25 Junction 26-27" 70;
    sample_camera 51.7012%R 0.0824%R "average_speed_end" "M25 Junction 26-27" 70;
    sample_camera 52.4862%R (-1.8904)%R "fixed" "A38 Bristol Road" 40;
    sample_camera 52.4774%R (-1.9132)%R "fixed" "A456 Hagley Road" 40;
    sample_camera 52.5127%R (-1.8716)%R "red_light" "A34 Birchfield Road" 30;
    sample_camera 53.4808%R (-2.2426)%R "fixed" "A56 Chester Road" 30;
    sample_camera 53.4723%R (-2.2380)%R "fixed" "A5103 Princess Road" 40;
    sample_camera 53.4944%R (-2.2235)%R "average_speed_start" "A635 Ashton Old Road" 40;
    sample_camera 53.7996%R (-1.5491)%R "fixed" "A58 Clay Pit Lane" 30;
    sample_camera 53.8067%R (-1.5373)%R "fixed" "A64 York Road" 40;
    sample_camera 55.8642%R (-4.2518)%R "fixed" "M8 Kingston Bridge" 50;
    sample_camera 55.8554%R (-4.2487)%R "red_light" "A8 Argyle Street" 30;
    sample_camera 55.9533%R (-3.1883)%R "fixed" "A1 London Road" 30;
    sample_camera 55.9418%R (-3.2047)%R "fixed" "A7 Dalkeith Road" 40 ].

(** The [for cam_data in sample_cameras] loop: entry number [i] is built
    with the factory values [cenv i] and inserted. *)
Fixpoint seed_insert (cenv : nat -> CameraEnv) (i : nat)
    (data : list SpeedCameraCreate.t) (coll : list SpeedCamera.t)
    : list SpeedCamera.t :=
  match data with
  | [] => coll
  | cam_data :: rest =>
      seed_insert cenv (S i) rest (insert_one (new_camera (cenv i) cam_data) coll)
  end.

(** [seed_sample_cameras]: the answer is the message and the count. *)
Definition seed_sample_cameras (cenv : nat -> CameraEnv) (db : DB)
    : DB * (string * Z) :=
  let cleared := delete_many (fun _ => true) (cameras db) in
  let count := Z.of_nat (List.length sample_cameras) in
  (mkDB (seed_insert cenv 0 sample_cameras cleared) (reports db) (settings db),
   (("Seeded " ++ str_of_int count ++ " sample cameras")%string, count)).

(** ** The exception of [math.sqrt]

    [math.sqrt] raises [ValueError] on a negative argument.  In exact
    arithmetic the two arguments it receives in [haversine_distance], [a]
    and [1 - a], are never negative; in binary64 the rounded [a] can leave
    the interval from 0 to 1 (it is 1.0000000000000002 for the points
    (-87.5, 0) and (87.5, 180)), and then the call raises.  The real-number
    reading cannot tell where this happens, so the place is a parameter:
    [domain_error lat1 lon1 lat2 lon2] says that the call with these
    arguments raises.  The definitions of module [Partial] are the helper
    and the handlers with this exception; nothing catches it, so it ends
    the request, and since no write comes before a distance is computed the
    store is then as it was. *)

Inductive outcome (A : Type) : Type :=
| Returned (x : A)
| ValueError.

Arguments Returned {A} x.
Arguments ValueError {A}.

Module Partial.
Section DomainError.
Variable domain_error : R -> R -> R -> R -> bool.

Definition haversine_distance (lat1 lon1 lat2 lon2 : R) : outcome R :=
  if domain_error lat1 lon1 lat2 lon2 then ValueError
  else Returned (haversine_distance lat1 lon1 lat2 lon2).

(** The [for existing in existing_reports] loop up to its [return]. *)
Fixpoint first_duplicate (report : CommunityReportCreate.t) (st : AppSettings.t)
    (existing_reports : list CommunityReport.t)
    : outcome (option CommunityReport.t) :=
  match existing_reports with
  | [] => Returned None
  | existing :: rest =>
      match haversine_distance
              (CommunityReportCreate.latitude report)
              (CommunityReportCreate.longitude report)
              (CommunityReport.latitude existing)
              (CommunityReport.longitude existing) with
      | ValueError => ValueError
      | Returned distance =>
          if Rleb distance (IZR (AppSettings.duplicate_radius_meters st))
          then Returned (Some existing)
          else first_duplicate report st rest
      end
  end.

Definition create_report (env : Env) (db : DB) (report : CommunityReportCreate.t)
    : outcome (DB * ReportResponse.t) :=
  let st := get_settings db (fresh_settings_id env) in
  let now := now env in
  match find_one (rate_limit_query report now st) (reports db) with
  | Some recent_report =>
      let wait_time :=
        AppSettings.rate_limit_minutes st
        - whole_minutes (now - CommunityReport.created_at recent_report) in
      Returned
        (db,
         ReportResponse.mk false
           (rate_limit_message wait_time (CommunityReportCreate.report_type report))
           None)
  | None =>
      let existing_reports :=
        to_list 100 (find (duplicate_query report now st) (reports db)) in
      match first_duplicate report st existing_reports with
      | ValueError => ValueError
      | Returned (Some existing) =>
          Returned
            (set_reports db
               (update_one
                  (fun d => String.eqb (CommunityReport.id d)
                              (CommunityReport.id existing))
                  CommunityReport.inc_confirmations (reports db)),
             ReportResponse.mk true
               (confirmed_message (CommunityReport.confirmations existing + 1))
               (Some (CommunityReport.id existing)))
      | Returned None =>
          let report_obj := new_report env report st in
          Returned
            (set_reports db (insert_one report_obj (reports db)),
             ReportResponse.mk true "Reported. Thanks!"
               (Some (CommunityReport.id report_obj)))
      end
  end.

Section Nearby.
Variables (lat lon radius_km : R).

(** The [for cam in cameras] loop. *)
Fixpoint collect_cameras (cams : list SpeedCamera.t) : outcome (list NearbyCamera) :=
  match cams with
  | [] => Returned []
  | cam :: rest =>
      match haversine_distance lat lon
              (SpeedCamera.latitude cam) (SpeedCamera.longitude cam) with
      | ValueError => ValueError
      | Returned distance =>
          match collect_cameras rest with
          | ValueError => ValueError
          | Returned result =>
              Returned
                (if Rleb distance (radius_km * 1000)
                 then mkNearbyCamera cam (py_round distance) :: result
                 else result)
          end
      end
  end.

Definition get_nearby_cameras (db : DB) : outcome (list NearbyCamera) :=
  let bbox := get_bounding_box lat lon radius_km in
  let cams := to_list 1000 (find (camera_box_query bbox) (cameras db)) in
  match collect_cameras cams with
  | ValueError => ValueError
  | Returned result => Returned (sort_by_key nc_distance_meters result)
  end.

(** The [for report in reports] loop. *)
Fixpoint collect_reports (now : datetime) (rs : list CommunityReport.t)
    : outcome (list NearbyReport) :=
  match rs with
  | [] => Returned []
  | r :: rest =>
      match haversine_distance lat lon
              (CommunityReport.latitude r) (CommunityReport.longitude r) with
      | ValueError => ValueError
      | Returned distance =>
          match collect_reports now rest with
          | ValueError => ValueError
          | Returned result =>
              Returned
                (if Rleb distance (radius_km * 1000)
                 then mkNearbyReport r (py_round distance)
                        (round_minutes (CommunityReport.expires_at r - now))
                      :: result
                 else result)
          end
      end
  end.

Definition get_nearby_reports (now : datetime) (db : DB)
    : outcome (list NearbyReport) :=
  let bbox := get_bounding_box lat lon radius_km in
  let rs := to_list 500 (find (report_box_query bbox now) (reports db)) in
  match collect_reports now rs with
  | ValueError => ValueError
  | Returned result => Returned (sort_by_key nr_distance_meters result)
  end.

Definition get_all_nearby (now : datetime) (db : DB)
    : outcome (list NearbyCamera * list NearbyReport) :=
  match get_nearby_cameras db with
  | ValueError => ValueError
  | Returned cams =>
      match get_nearby_reports now db with
      | ValueError => ValueError
      | Returned reps => Returned (cams, reps)
      end
  end.
End Nearby.
End DomainError.
End Partial.

(** Whether the distance computed for a candidate of the merge loop, for a
    camera or for a report of a proximity query raises. *)
Definition merge_distance_raises (domain_error : R -> R -> R -> R -> bool)
    (report : CommunityReportCreate.t) (existing : CommunityReport.t) : bool :=
  domain_error
    (CommunityReportCreate.latitude report) (CommunityReportCreate.longitude report)
    (CommunityReport.latitude existing) (CommunityReport.longitude existing).

Definition camera_distance_raises (domain_error : R -> R -> R -> R -> bool)
    (lat lon : R) (cam : SpeedCamera.t) : bool :=
  domain_error lat lon (SpeedCamera.latitude cam) (SpeedCamera.longitude cam).

Definition report_distance_raises (domain_error : R -> R -> R -> R -> bool)
    (lat lon : R) (r : CommunityReport.t) : bool :=
  domain_error lat lon (CommunityReport.latitude r) (CommunityReport.longitude r).

(** ** Well-formed stores *)

(** Report identifiers come from [uuid.uuid4()]: a store is well formed
    when they are pairwise distinct. *)
Definition unique_ids (rs : list CommunityReport.t) : Prop :=
  NoDup (map CommunityReport.id rs).

(** Executable test that the strings of a list are pairwise distinct. *)
Fixpoint distinct_strings (l : list string) : bool :=
  match l with
  | [] => true
  | x :: rest => negb (existsb (String.eqb x) rest) && distinct_strings rest
  end.

(** ** Sample data

    Concrete requests and database states on which the statements below
    are exercised.  Times are microseconds; ten minutes past the epoch is
    [600000000]. *)

Module Sample.
Definition env : Env := mkEnv 600000000 "new-1" 600000001 "settings-0".

Definition empty_db : DB := mkDB [] [] [].

(** A stored report at the origin of the coordinate system. *)
Definition report_at_origin (rid rtype uid : string) (created expires : datetime)
    : CommunityReport.t :=
  CommunityReport.mk rid 0%R 0%R rtype uid 1 created expires true.

(** A stored report on the antimeridian, half a world away from the
  origin. *)
Definition report_far_away (rid rtype uid : string) (created expires : datetime)
    : CommunityReport.t :=
  CommunityReport.mk rid 0%R 180%R rtype uid 1 created expires true.

Definition submit_at_origin (rtype uid : string) : CommunityReportCreate.t :=
  CommunityReportCreate.mk 0%R 0%R rtype uid.

(** Submitter A reported a mobile camera thirty seconds ago. *)
Definition recent_A : CommunityReport.t :=
  report_at_origin "r-1" "mobile_camera" "A" 570000000 5070000000.
Definition db_recent_A : DB := mkDB [] [recent_A] [].



(** One hundred live police-check reports far away, enumerated before one
  live police-check report at the origin. *)
Definition far_reports : list CommunityReport.t :=
  map (fun i => report_far_away ("far-" ++ str_of_int (Z.of_nat i))%string
                  "police_check" "C" 580000000 3700000000)
      (seq 0 100).
Definition near_report : CommunityReport.t :=
  report_at_origin "near" "police_check" "A" 590000000 3710000000.
Definition db_crowded : DB := mkDB [] (far_reports ++ [near_report]) [].

(** The report at the origin alone. *)
Definition db_near_only : DB := mkDB [] [near_report] [].

Definition camera_at_origin (cid : string) : SpeedCamera.t :=
  SpeedCamera.mk cid 0%R 0%R "fixed" None (Some 30) None 100 0 true 0.
Definition db_two_cameras : DB :=
  mkDB [camera_at_origin "cam-1"; camera_at_origin "cam-2"] [] [].

(** A camera on the antimeridian. *)
Definition camera_far_away : SpeedCamera.t :=
  SpeedCamera.mk "cam-far" 0%R 180%R "fixed" None (Some 30) None 100 0 true 0.
Definition db_far_camera : DB := mkDB [camera_far_away] [] [].

(** An expired and a live report at the same place. *)
Definition expired_report : CommunityReport.t :=
  report_at_origin "old" "police_check" "A" 0 600000000.
Definition live_report : CommunityReport.t :=
  report_at_origin "live" "police_check" "B" 0 600000001.
Definition db_expiry : DB := mkDB [] [expired_report; live_report] [].
End Sample.

(** ** Scenarios

    Further requests and states, used with the properties of the last
    part. *)

Module Scenario.
(** One minute after [Sample.env]. *)
Definition env_later : Env := mkEnv 660000000 "new-2" 660000001 "settings-0".

(** Settings with a ten-minute TTL for mobile cameras. *)
Definition short_ttl : AppSettings.t := AppSettings.mk "settings-1" 10 20 200 15 5.

Definition camera_payload : SpeedCameraCreate.t :=
  sample_camera 0%R 0%R "fixed" "Test Road" 30.
Definition camera_env : CameraEnv := mkCameraEnv "cam-new" 1 2.

Definition seed_env (i : nat) : CameraEnv :=
  mkCameraEnv ("seed-" ++ str_of_int (Z.of_nat i))%string 0 0.

(** The same submission as [Sample.submit_at_origin], sent from London. *)
Definition submit_in_london (rtype uid : string) : CommunityReportCreate.t :=
  CommunityReportCreate.mk 51.5%R (-0.12)%R rtype uid.
(** A live police-check report close to the south pole, and a submission
    at its antipode, close to the north pole. *)
Definition polar_report (rid : string) : CommunityReport.t :=
  CommunityReport.mk rid (-87.5)%R 0%R "police_check" "C" 1 580000000 3700000000 true.
Definition submit_at_antipode (uid : string) : CommunityReportCreate.t :=
  CommunityReportCreate.mk 87.5%R 180%R "police_check" uid.
Definition antipode_report : CommunityReport.t :=
  CommunityReport.mk "near-pole" 87.5%R 180%R "police_check" "A" 1
    590000000 3710000000 true.
Definition db_polar : DB := mkDB [] [polar_report "polar"] [].

(** One hundred such reports enumerated before a report at the submitted
    place. *)
Definition polar_reports : list CommunityReport.t :=
  map (fun i => polar_report ("polar-" ++ str_of_int (Z.of_nat i))%string) (seq 0 100).
Definition db_polar_crowded : DB := mkDB [] (polar_reports ++ [antipode_report]) [].

(** A camera close to the south pole. *)
Definition polar_camera : SpeedCamera.t :=
  SpeedCamera.mk "cam-polar" (-87.5)%R 0%R "fixed" None (Some 30) None 100 0 true 0.

Definition Reqb (x y : R) : bool := if Req_dec_T x y then true else false.

(** The domain error that binary64 is known to produce: between
    (-87.5, 0) and (87.5, 180), in either order, and nowhere else. *)
Definition antipodal_domain_error (lat1 lon1 lat2 lon2 : R) : bool :=
  (Reqb lat1 (-87.5) && Reqb lon1 0 && Reqb lat2 87.5 && Reqb lon2 180)
  || (Reqb lat1 87.5 && Reqb lon1 180 && Reqb lat2 (-87.5) && Reqb lon2 0).
End Scenario.

(** * Properties *)

(** ** Collections *)

Section CollectionFacts.
Context {A : Type}.
Implicit Types (q : A -> bool) (coll : list A).

Lemma find_one_none q coll :
  find_one q coll = None <-> (forall d, In d coll -> q d = false).
Proof.
  induction coll as [|d rest IH]; simpl.
  - split; [intros _ d [] | reflexivity].
  - destruct (q d) eqn:Hq.
    + split; [discriminate|].
      intros H. specialize (H d (or_introl eq_refl)). congruence.
    + rewrite IH. split.
      * intros H x [<-|Hx]; auto.
      * intros H x Hx. apply H. now right.
Qed.



Lemma find_one_exists q coll :
  (exists d, In d coll /\ q d = true) -> exists d, find_one q coll = Some d.
Proof.
  intros (d & Hin & Hq).
  destruct (find_one q coll) as [d'|] eqn:E; [now exists d'|].
  rewrite find_one_none in E. rewrite (E d Hin) in Hq. discriminate.
Qed.

Lemma find_all q coll :
  (forall d, In d coll -> q d = true) -> find q coll = coll.
Proof.
  unfold find. induction coll as [|d rest IH]; simpl; intros H; [reflexivity|].
  rewrite (H d (or_introl eq_refl)). f_equal. apply IH. intros; apply H; now right.
Qed.

Lemma find_app q (l1 l2 : list A) : find q (l1 ++ l2) = find q l1 ++ find q l2.
Proof. apply filter_app. Qed.

Lemma find_in q coll d : In d (find q coll) <-> In d coll /\ q d = true.
Proof. apply filter_In. Qed.

Lemma to_list_in n coll d : In d (to_list n coll) -> In d coll.
Proof.
  unfold to_list. intros H.
  rewrite <- (firstn_skipn n coll). apply in_or_app. now left.
Qed.

Lemma to_list_prefix n (l1 l2 : list A) :
  List.length l1 = n -> to_list n (l1 ++ l2) = l1.
Proof.
  intros <-. unfold to_list. rewrite firstn_app, Nat.sub_diag, firstn_all.
  simpl. apply app_nil_r.
Qed.

Lemma to_list_length n coll : (List.length (to_list n coll) <= n)%nat.
Proof. apply firstn_le_length. Qed.


(** [update_one] touches the first match and nothing else. *)
Lemma update_one_split q (u : A -> A) before d after :
  q d = true -> (forall x, In x before -> q x = false) ->
  update_one q u (before ++ d :: after) = before ++ u d :: after.
Proof.
  intros Hd. induction before as [|x b IH]; simpl; intros Hb.
  - now rewrite Hd.
  - rewrite (Hb x (or_introl eq_refl)). f_equal. apply IH.
    intros y Hy. apply Hb. now right.
Qed.

Lemma update_one_no_match q (u : A -> A) coll :
  (forall x, In x coll -> q x = false) -> update_one q u coll = coll.
Proof.
  induction coll as [|x rest IH]; simpl; intros H; [reflexivity|].
  rewrite (H x (or_introl eq_refl)). f_equal. apply IH.
  intros y Hy. apply H. now right.
Qed.
End CollectionFacts.

(** ** Stored reports with pairwise distinct identifiers *)

Lemma unique_ids_split rs e :
  unique_ids rs -> In e rs ->
  exists before after,
    rs = before ++ e :: after
    /\ (forall x, In x before ->
          String.eqb (CommunityReport.id x) (CommunityReport.id e) = false).
Proof.
  intros Hnd Hin. destruct (in_split _ _ Hin) as (b & a & ->).
  exists b, a. split; [reflexivity|].
  intros x Hx. apply String.eqb_neq. intros Heq.
  unfold unique_ids in Hnd. rewrite map_app in Hnd. simpl in Hnd.
  apply NoDup_remove_2 in Hnd. apply Hnd.
  apply in_or_app. left. rewrite <- Heq. now apply in_map.
Qed.

Lemma update_by_id_unique rs e (u : CommunityReport.t -> CommunityReport.t) :
  unique_ids rs -> In e rs ->
  exists before after,
    rs = before ++ e :: after
    /\ update_one (fun d => String.eqb (CommunityReport.id d) (CommunityReport.id e))
         u rs = before ++ u e :: after.
Proof.
  intros Hnd Hin.
  destruct (unique_ids_split _ _ Hnd Hin) as (b & a & -> & Hb).
  exists b, a. split; [reflexivity|].
  apply update_one_split; [apply String.eqb_refl | exact Hb].
Qed.

(** ** The merge loop *)

Lemma first_duplicate_none report st l :
  first_duplicate report st l = None <->
  (forall d, In d l -> within_duplicate_radius report st d = false).
Proof.
  induction l as [|d rest IH]; simpl.
  - split; [intros _ d [] | reflexivity].
  - destruct (within_duplicate_radius report st d) eqn:Hw.
    + split; [discriminate|].
      intros H. specialize (H d (or_introl eq_refl)). congruence.
    + rewrite IH. split.
      * intros H x [<-|Hx]; auto.
      * intros H x Hx. apply H. now right.
Qed.

Lemma first_duplicate_some report st l e :
  first_duplicate report st l = Some e ->
  exists before after,
    l = before ++ e :: after
    /\ within_duplicate_radius report st e = true
    /\ (forall x, In x before -> within_duplicate_radius report st x = false).
Proof.
  induction l as [|x rest IH]; simpl; [discriminate|].
  destruct (within_duplicate_radius report st x) eqn:Hw.
  - intros [= <-]. exists [], rest. repeat split; auto. intros ? [].
  - intros H. destruct (IH H) as (b & a & -> & He & Hb).
    exists (x :: b), a. repeat split; auto.
    intros y [<-|Hy]; auto.
Qed.

Lemma first_duplicate_exists report st l :
  (exists d, In d l /\ within_duplicate_radius report st d = true) ->
  exists e, first_duplicate report st l = Some e.
Proof.
  intros (d & Hin & Hw).
  destruct (first_duplicate report st l) as [e|] eqn:E; [now exists e|].
  rewrite first_duplicate_none in E. rewrite (E d Hin) in Hw. discriminate.
Qed.

(** ** The three exits of [create_report] *)

Section CreateReportExits.
Variables (env : Env) (db : DB) (report : CommunityReportCreate.t).

Let st := get_settings db (fresh_settings_id env).
Let candidates :=
  to_list 100 (find (duplicate_query report (now env) st) (reports db)).

Lemma create_report_rate_limited_eq recent :
  find_one (rate_limit_query report (now env) st) (reports db) = Some recent ->
  create_report env db report =
    (db,
     ReportResponse.mk false
       (rate_limit_message
          (AppSettings.rate_limit_minutes st
           - Z.quot (now env - CommunityReport.created_at recent) 60000000)
          (CommunityReportCreate.report_type report))
       None).
Proof. intros H. unfold create_report. fold st. now rewrite H. Qed.

Lemma create_report_merge_eq existing :
  find_one (rate_limit_query report (now env) st) (reports db) = None ->
  first_duplicate report st candidates = Some existing ->
  create_report env db report =
    (set_reports db
       (update_one
          (fun d => String.eqb (CommunityReport.id d) (CommunityReport.id existing))
          CommunityReport.inc_confirmations (reports db)),
     ReportResponse.mk true
       (confirmed_message (CommunityReport.confirmations existing + 1))
       (Some (CommunityReport.id existing))).
Proof.
  intros H1 H2. unfold create_report. fold st. rewrite H1.
  fold candidates. now rewrite H2.
Qed.

Lemma create_report_insert_eq :
  find_one (rate_limit_query report (now env) st) (reports db) = None ->
  first_duplicate report st candidates = None ->
  create_report env db report =
    (set_reports db (reports db ++ [new_report env report st]),
     ReportResponse.mk true "Reported. Thanks!" (Some (fresh_report_id env))).
Proof.
  intros H1 H2. unfold create_report. fold st. rewrite H1.
  fold candidates. now rewrite H2.
Qed.
End CreateReportExits.

(** ** Rate limiting *)







(** ** Geo math *)

Section GeoFacts.
Local Open Scope R_scope.

Lemma atan2_0_1 : atan2 0 1 = 0.
Proof.
  unfold atan2. destruct (Rlt_dec 0 1) as [_|H]; [|lra].
  replace (0 / 1) with 0 by field. apply atan_0.
Qed.

Lemma atan2_1_0 : atan2 1 0 = PI / 2.
Proof.
  unfold atan2.
  destruct (Rlt_dec 0 0) as [H|_]; [lra|].
  destruct (Rlt_dec 0 1) as [_|H]; [reflexivity|lra].
Qed.

Lemma haversine_of_a_0 lat1 lon1 lat2 lon2 :
  haversine_a lat1 lon1 lat2 lon2 = 0 -> haversine_distance lat1 lon1 lat2 lon2 = 0.
Proof.
  intros Ha. unfold haversine_distance. cbv zeta. rewrite Ha.
  rewrite Rminus_0_r, sqrt_0, sqrt_1, atan2_0_1. ring.
Qed.

Lemma haversine_of_a_1 lat1 lon1 lat2 lon2 :
  haversine_a lat1 lon1 lat2 lon2 = 1 ->
  haversine_distance lat1 lon1 lat2 lon2 = EARTH_RADIUS * PI.
Proof.
  intros Ha. unfold haversine_distance. cbv zeta. rewrite Ha.
  replace (1 - 1) with 0 by ring.
  rewrite sqrt_0, sqrt_1, atan2_1_0. field.
Qed.

Lemma haversine_distance_same lat lon : haversine_distance lat lon lat lon = 0.
Proof.
  apply haversine_of_a_0. unfold haversine_a, radians. cbv zeta.
  replace ((lat - lat) * PI / 180 / 2) with 0 by field.
  replace ((lon - lon) * PI / 180 / 2) with 0 by field.
  rewrite sin_0. ring.
Qed.

Lemma haversine_origin_antimeridian :
  haversine_distance 0 0 0 180 = EARTH_RADIUS * PI.
Proof.
  apply haversine_of_a_1. unfold haversine_a, radians. cbv zeta.
  replace ((0 - 0) * PI / 180 / 2) with 0 by field.
  replace ((180 - 0) * PI / 180 / 2) with (PI / 2) by field.
  replace (0 * PI / 180) with 0 by field.
  rewrite sin_0, cos_0, sin_PI2. ring.
Qed.

Lemma haversine_across_antimeridian :
  haversine_distance 0 180 0 (-180) = 0.
Proof.
  apply haversine_of_a_0. unfold haversine_a, radians. cbv zeta.
  replace ((0 - 0) * PI / 180 / 2) with 0 by field.
  replace ((-180 - 180) * PI / 180 / 2) with (- PI) by field.
  rewrite sin_neg, sin_PI, sin_0. ring.
Qed.

Lemma PI_gt_314 : 314 / 100 < PI.
Proof.
  pose proof (PI_2_3_7_ineq 1) as [H _].
  unfold sum_f_R0, tg_alt, PI_2_3_7_tg, Ratan_seq in H.
  simpl in H. lra.
Qed.

Lemma atan_le (x y : R) : x <= y -> atan x <= atan y.
Proof.
  intros [H| ->]; [left; now apply atan_increasing | right; reflexivity].
Qed.

(** The central angle computed from [a] dominates any angle [theta] of the
    first quadrant with [sin theta ^ 2 <= a]. *)
Lemma atan2_sqrt_lower (a theta : R) :
  0 <= theta <= PI / 2 -> (sin theta) ^ 2 <= a ->
  theta <= atan2 (sqrt a) (sqrt (1 - a)).
Proof.
  intros [Ht0 Ht1] Ha.
  assert (Hs0 : 0 <= sin theta) by (apply sin_ge_0; lra).
  assert (Hc0 : 0 <= cos theta) by (apply cos_ge_0; lra).
  assert (Ha0 : 0 <= a) by nra.
  assert (Hsa : sin theta <= sqrt a).
  { rewrite <- (sqrt_pow2 (sin theta)) by exact Hs0. now apply sqrt_le_1_alt. }
  unfold atan2.
  destruct (Rlt_dec 0 (sqrt (1 - a))) as [Hx|Hx].
  - assert (H1a : 0 < 1 - a).
    { destruct (Rle_or_lt (1 - a) 0) as [Hle|Hlt]; [|exact Hlt].
      rewrite (sqrt_neg_0 _ Hle) in Hx. lra. }
    assert (Hca : sqrt (1 - a) <= cos theta).
    { rewrite <- (sqrt_pow2 (cos theta)) by exact Hc0. apply sqrt_le_1_alt.
      pose proof (sin2_cos2 theta) as E. unfold Rsqr in E. nra. }
    assert (Hcpos : 0 < cos theta) by lra.
    assert (Hlt : theta < PI / 2).
    { destruct Ht1 as [Hlt|Heq]; [exact Hlt|].
      rewrite Heq, cos_PI2 in Hcpos. lra. }
    rewrite <- (atan_tan theta) at 1 by lra.
    apply atan_le. unfold tan.
    apply Rle_trans with (sqrt a / cos theta).
    + apply Rmult_le_compat_r; [left; now apply Rinv_0_lt_compat | exact Hsa].
    + apply Rmult_le_compat_l; [apply sqrt_pos|].
      apply Rinv_le_contravar; assumption.
  - assert (Hx0 : sqrt (1 - a) = 0) by (pose proof (sqrt_pos (1 - a)); lra).
    rewrite Hx0.
    destruct (Rlt_dec 0 0) as [H|_]; [lra|].
    assert (Ha1 : 1 <= a).
    { destruct (Rle_or_lt 1 a) as [H|H]; [exact H|].
      pose proof (sqrt_lt_R0 (1 - a) ltac:(lra)). lra. }
    destruct (Rlt_dec 0 (sqrt a)) as [_|H]; [exact Ht1|].
    exfalso. apply H. apply sqrt_lt_R0. lra.
Qed.

Lemma sin_sqr_abs (x : R) : (sin (Rabs x)) ^ 2 = (sin x) ^ 2.
Proof.
  unfold Rabs. destruct (Rcase_abs x); [rewrite sin_neg; ring | reflexivity].
Qed.

(** The great-circle distance is at least the length of the meridian arc
    between the two latitudes. *)
Lemma haversine_distance_meridian (lat1 lon1 lat2 lon2 : R) :
  -90 <= lat1 <= 90 -> -90 <= lat2 <= 90 ->
  EARTH_RADIUS * (Rabs (lat2 - lat1) * PI / 180)
    <= haversine_distance lat1 lon1 lat2 lon2.
Proof.
  intros H1 H2. pose proof PI_RGT_0 as Hpi.
  unfold haversine_distance. cbv zeta.
  apply Rmult_le_compat_l; [unfold EARTH_RADIUS; lra|].
  set (theta := Rabs (lat2 - lat1) * PI / 360).
  replace (Rabs (lat2 - lat1) * PI / 180) with (2 * theta) by (unfold theta; field).
  apply Rmult_le_compat_l; [lra|].
  assert (Habs : 0 <= Rabs (lat2 - lat1) <= 180).
  { split; [apply Rabs_pos|]. apply Rabs_le. lra. }
  apply atan2_sqrt_lower.
  - unfold theta. split; [nra|]. nra.
  - unfold haversine_a. cbv zeta.
    assert (Hc1 : 0 <= cos (radians lat1)).
    { apply cos_ge_0; unfold radians; nra. }
    assert (Hc2 : 0 <= cos (radians lat2)).
    { apply cos_ge_0; unfold radians; nra. }
    assert (Hth : theta = Rabs (radians (lat2 - lat1) / 2)).
    { unfold theta, radians.
      replace ((lat2 - lat1) * PI / 180 / 2) with ((lat2 - lat1) * (PI / 360)) by field.
      rewrite Rabs_mult, (Rabs_right (PI / 360)) by lra. field. }
    rewrite Hth, sin_sqr_abs.
    assert (0 <= cos (radians lat1) * cos (radians lat2)
                 * sin (radians (lon2 - lon1) / 2) ^ 2).
    { apply Rmult_le_pos; [now apply Rmult_le_pos | apply pow2_ge_0]. }
    lra.
Qed.

Lemma latitude_within_bound (lat lon lat2 lon2 radius_km : R) :
  -90 <= lat <= 90 -> -90 <= lat2 <= 90 ->
  haversine_distance lat lon lat2 lon2 <= radius_km * 1000 ->
  lat - radius_km / 111 <= lat2 <= lat + radius_km / 111.
Proof.
  intros H1 H2 Hd.
  pose proof (haversine_distance_meridian lat lon lat2 lon2 H1 H2) as Hm.
  pose proof PI_gt_314 as Hpi.
  unfold EARTH_RADIUS in Hm.
  assert (Habs : 0 <= Rabs (lat2 - lat)) by apply Rabs_pos.
  assert (Hk : Rabs (lat2 - lat) * (6371 * PI / 180) <= radius_km) by nra.
  assert (Hb : Rabs (lat2 - lat) <= radius_km / 111).
  { assert (Rabs (lat2 - lat) * 111 <= Rabs (lat2 - lat) * (6371 * PI / 180)).
    { apply Rmult_le_compat_l; [exact Habs | lra]. }
    lra. }
  unfold Rabs in Hb. destruct (Rcase_abs (lat2 - lat)); lra.
Qed.

(** [math.sqrt] raises on a negative argument.  Over the reals both
    arguments it receives in [haversine_distance], [a] and [1 - a], are
    never negative, whatever the four coordinates. *)
Lemma haversine_a_range (lat1 lon1 lat2 lon2 : R) :
  0 <= haversine_a lat1 lon1 lat2 lon2 <= 1.
Proof.
  unfold haversine_a. cbv zeta.
  set (p1 := radians lat1). set (p2 := radians lat2).
  assert (Hd : radians (lat2 - lat1) = p2 - p1) by (unfold p1, p2, radians; field).
  rewrite Hd.
  set (s := sin ((p2 - p1) / 2)).
  set (t := sin (radians (lon2 - lon1) / 2)).
  assert (Hcd : cos (p2 - p1) = 1 - 2 * s ^ 2).
  { replace (p2 - p1) with (2 * ((p2 - p1) / 2)) at 1 by field.
    rewrite cos_2a_sin. unfold s. ring. }
  assert (Hprod : 2 * (cos p1 * cos p2) = cos (p2 - p1) + cos (p1 + p2)).
  { rewrite cos_minus, cos_plus. ring. }
  pose proof (COS_bound (p1 + p2)) as [Hc1 Hc2].
  assert (Ht : 0 <= t ^ 2 <= 1).
  { pose proof (SIN_bound (radians (lon2 - lon1) / 2)) as [H1 H2].
    fold t in H1, H2. split; nra. }
  assert (Hs : 0 <= s ^ 2 <= 1).
  { pose proof (SIN_bound ((p2 - p1) / 2)) as [H1 H2].
    fold s in H1, H2. split; nra. }
  assert (Hp : - s ^ 2 <= cos p1 * cos p2 <= 1 - s ^ 2) by lra.
  split; nra.
Qed.

Lemma Rleb_true (x y : R) : Rleb x y = true <-> x <= y.
Proof.
  unfold Rleb. destruct (Rle_dec x y); split; auto; discriminate.
Qed.

Lemma Rleb_false (x y : R) : Rleb x y = false <-> y < x.
Proof.
  unfold Rleb. destruct (Rle_dec x y); split; auto; try discriminate; lra.
Qed.

Lemma py_round_nearest (x : R) : Rabs (IZR (py_round x) - x) <= 1 / 2.
Proof.
  destruct (base_Int_part x) as [Hlo Hhi].
  unfold py_round. cbv zeta.
  destruct (Rlt_dec (x - IZR (Int_part x)) (1 / 2)) as [H1|H1].
  - apply Rabs_le. lra.
  - assert (Hup : Rabs (IZR (Int_part x + 1) - x) <= 1 / 2).
    { rewrite plus_IZR. apply Rabs_le. lra. }
    destruct (Rlt_dec (1 / 2) (x - IZR (Int_part x))) as [H2|H2]; [exact Hup|].
    destruct (Z.even (Int_part x)); [apply Rabs_le; lra | exact Hup].
Qed.

Lemma py_round_0 : py_round 0 = 0%Z.
Proof.
  assert (H0 : Int_part 0 = 0%Z).
  { symmetry. apply Int_part_spec. simpl. lra. }
  unfold py_round. cbv zeta. rewrite H0. simpl.
  destruct (Rlt_dec (0 - 0) (1 / 2)) as [_|H]; [reflexivity | lra].
Qed.

(** The centre of a query lies in its own bounding box. *)
Lemma in_box_center (lat lon radius_km : R) :
  -90 <= lat <= 90 -> 0 <= radius_km ->
  in_box (get_bounding_box lat lon radius_km) lat lon = true.
Proof.
  intros Hlat Hr. pose proof PI_RGT_0 as Hpi.
  assert (Hc : 0 <= cos (radians lat)).
  { apply cos_ge_0; unfold radians; nra. }
  assert (Hd : 0 <= radius_km / (111 * cos (radians lat))).
  { unfold Rdiv. apply Rmult_le_pos; [exact Hr|].
    destruct Hc as [Hc|Hc].
    - left. apply Rinv_0_lt_compat. lra.
    - rewrite <- Hc, Rmult_0_r, Rinv_0. lra. }
  unfold in_box, get_bounding_box. cbv zeta. simpl.
  rewrite !andb_true_iff, !Rleb_true. lra.
Qed.
End GeoFacts.

(** ** Facts about the sample data *)

Lemma within_duplicate_radius_same_place report st existing :
  CommunityReport.latitude existing = CommunityReportCreate.latitude report ->
  CommunityReport.longitude existing = CommunityReportCreate.longitude report ->
  0 <= AppSettings.duplicate_radius_meters st ->
  within_duplicate_radius report st existing = true.
Proof.
  intros Hlat Hlon Hr. unfold within_duplicate_radius.
  rewrite Hlat, Hlon, haversine_distance_same. apply Rleb_true. now apply IZR_le.
Qed.

Lemma within_duplicate_radius_far rtype uid rid rtype' uid' created expires fresh :
  within_duplicate_radius (Sample.submit_at_origin rtype uid)
    (AppSettings.defaults fresh)
    (Sample.report_far_away rid rtype' uid' created expires) = false.
Proof.
  unfold within_duplicate_radius. simpl.
  rewrite haversine_origin_antimeridian. apply Rleb_false.
  pose proof PI_gt_314. unfold EARTH_RADIUS. lra.
Qed.


Lemma distinct_strings_NoDup l : distinct_strings l = true -> NoDup l.
Proof.
  induction l as [|x rest IH]; simpl; intros H; [constructor|].
  apply andb_prop in H as [Hx Hrest]. constructor; [|now apply IH].
  intros Hin. apply negb_true_iff in Hx.
  assert (Hex : existsb (String.eqb x) rest = true).
  { apply existsb_exists. exists x. split; [exact Hin | apply String.eqb_refl]. }
  congruence.
Qed.

Section CrowdedFacts.
Let report := Sample.submit_at_origin "police_check" "B".
Let st := get_settings Sample.db_crowded (fresh_settings_id Sample.env).
Let matching :=
  find (duplicate_query report (now Sample.env) st) (reports Sample.db_crowded).

Lemma crowded_far_length : List.length Sample.far_reports = 100%nat.
Proof. unfold Sample.far_reports. now rewrite length_map, length_seq. Qed.

Lemma crowded_unique_ids : unique_ids (reports Sample.db_crowded).
Proof. apply distinct_strings_NoDup. vm_compute. reflexivity. Qed.

Lemma crowded_not_rate_limited :
  forall d, In d (reports Sample.db_crowded) ->
    rate_limit_query report (now Sample.env) st d = false.
Proof.
  intros d Hd. change (In d (Sample.far_reports ++ [Sample.near_report])) in Hd.
  apply in_app_or in Hd as [Hd|[<-|[]]].
  - unfold Sample.far_reports in Hd. apply in_map_iff in Hd as (i & <- & _).
    reflexivity.
  - reflexivity.
Qed.

Lemma crowded_matching : matching = Sample.far_reports ++ [Sample.near_report].
Proof.
  unfold matching. apply find_all. intros d Hd.
  change (In d (Sample.far_reports ++ [Sample.near_report])) in Hd.
  apply in_app_or in Hd as [Hd|[<-|[]]].
  - unfold Sample.far_reports in Hd. apply in_map_iff in Hd as (i & <- & _).
    reflexivity.
  - reflexivity.
Qed.

Lemma crowded_first_100 : to_list 100 matching = Sample.far_reports.
Proof. rewrite crowded_matching. apply to_list_prefix, crowded_far_length. Qed.

Lemma crowded_rest : skipn 100 matching = [Sample.near_report].
Proof.
  rewrite crowded_matching, skipn_app, crowded_far_length, Nat.sub_diag.
  rewrite skipn_all2 by (rewrite crowded_far_length; lia). reflexivity.
Qed.

Lemma crowded_first_100_far :
  forall d, In d (to_list 100 matching) -> within_duplicate_radius report st d = false.
Proof.
  intros d Hd. rewrite crowded_first_100 in Hd.
  unfold Sample.far_reports in Hd. apply in_map_iff in Hd as (i & <- & _).
  apply within_duplicate_radius_far.
Qed.

Lemma crowded_near_within : within_duplicate_radius report st Sample.near_report = true.
Proof. apply within_duplicate_radius_same_place; try reflexivity. simpl. lia. Qed.

Lemma crowded_near_is_candidate :
  In Sample.near_report (reports Sample.db_crowded)
  /\ duplicate_query report (now Sample.env) st Sample.near_report = true.
Proof.
  split; [|reflexivity].
  change (In Sample.near_report (Sample.far_reports ++ [Sample.near_report])).
  apply in_or_app; right; now left.
Qed.
End CrowdedFacts.

(** ** New-report creation *)

(** The creation exit in the real-number reading, where no distance
    raises.  A submission that is neither rate-limited nor merged appends one
    record to the reports collection, with [confirmations = 1] and
    [expires_at = now + TTL], where the TTL is [mobile_camera_ttl_minutes]
    of the settings read by this call when the type is ['mobile_camera'] and
    [police_check_ttl_minutes] otherwise; the call answers [success = true]
    with the identifier of that record. *)
Theorem create_report_new_record
    (env : Env) (db : DB) (report : CommunityReportCreate.t) :
  let st := get_settings db (fresh_settings_id env) in
  (forall d, In d (reports db) -> rate_limit_query report (now env) st d = false) ->
  (forall d,
     In d (to_list 100 (find (duplicate_query report (now env) st) (reports db))) ->
     within_duplicate_radius report st d = false) ->
  exists r,
    create_report env db report =
      (mkDB (cameras db) (reports db ++ [r]) (settings db),
       ReportResponse.mk true "Reported. Thanks!" (Some (CommunityReport.id r)))
    /\ CommunityReport.confirmations r = 1
    /\ CommunityReport.expires_at r =
         now env
         + (if String.eqb (CommunityReportCreate.report_type report) "mobile_camera"
            then AppSettings.mobile_camera_ttl_minutes st
            else AppSettings.police_check_ttl_minutes st) * 60000000
    /\ CommunityReport.latitude r = CommunityReportCreate.latitude report
    /\ CommunityReport.longitude r = CommunityReportCreate.longitude report
    /\ CommunityReport.report_type r = CommunityReportCreate.report_type report
    /\ CommunityReport.user_id r = CommunityReportCreate.user_id report
    /\ CommunityReport.is_active r = true.
Proof.
  intros st Hrl Hdup. exists (new_report env report st).
  split; [|repeat split].
  - apply create_report_insert_eq.
    + now apply find_one_none.
    + now apply first_duplicate_none.
Qed.

Lemma create_report_new_record_witness :
  exists r,
    create_report Sample.env Sample.empty_db
      (Sample.submit_at_origin "mobile_camera" "A")
    = (mkDB [] [r] [],
       ReportResponse.mk true "Reported. Thanks!" (Some (CommunityReport.id r)))
    /\ CommunityReport.confirmations r = 1
    /\ CommunityReport.expires_at r = 600000000 + 75 * 60000000.
Proof.
  destruct (create_report_new_record Sample.env Sample.empty_db
              (Sample.submit_at_origin "mobile_camera" "A"))
    as (r & Heq & Hc & He & _).
  - intros d [].
  - intros d [].
  - exists r. split; [exact Heq|]. split; [exact Hc | exact He].
Defined.



(** ** Distinct identifiers are an invariant of [create_report] *)

Lemma update_one_ids (q : CommunityReport.t -> bool) (rs : list CommunityReport.t) :
  map CommunityReport.id (update_one q CommunityReport.inc_confirmations rs)
  = map CommunityReport.id rs.
Proof.
  induction rs as [|d rest IH]; simpl; [reflexivity|].
  destruct (q d); simpl; [reflexivity | now rewrite IH].
Qed.

(** X15.  Report identifiers stay pairwise distinct: when they are
    distinct before a submission and the identifier drawn for a new record
    is not stored yet, they are distinct after it, whichever exit the call
    takes. *)
Lemma create_report_preserves_unique_ids
    (env : Env) (db : DB) (report : CommunityReportCreate.t) :
  unique_ids (reports db) ->
  ~ In (fresh_report_id env) (map CommunityReport.id (reports db)) ->
  unique_ids (reports (fst (create_report env db report))).
Proof.
  intros Huniq Hfresh. unfold create_report.
  destruct (find_one _ (reports db)) as [recent|]; [exact Huniq|].
  destruct (first_duplicate _ _ _) as [existing|]; simpl; unfold unique_ids.
  - rewrite update_one_ids. exact Huniq.
  - unfold insert_one. rewrite map_app. simpl.
    apply Permutation_NoDup with (l := fresh_report_id env :: map CommunityReport.id (reports db)).
    + apply Permutation_cons_append.
    + constructor; assumption.
Qed.

(** ** Duplicate merging *)

Lemma candidate_in_store report now st rs n d :
  In d (to_list n (find (duplicate_query report now st) rs)) ->
  In d rs /\ duplicate_query report now st d = true.
Proof. intros H. now apply to_list_in, find_in in H. Qed.

Lemma duplicate_query_spec report now st d :
  duplicate_query report now st d = true <->
  CommunityReport.report_type d = CommunityReportCreate.report_type report
  /\ CommunityReport.is_active d = true
  /\ now < CommunityReport.expires_at d
  /\ now - AppSettings.duplicate_time_window_minutes st * 60000000
       <= CommunityReport.created_at d.
Proof.
  unfold duplicate_query, timedelta_minutes, MICROS_PER_MINUTE.
  rewrite !andb_true_iff, String.eqb_eq, Bool.eqb_true_iff, Z.ltb_lt, Z.leb_le.
  tauto.
Qed.

(** C1 (as stated) fails when the matching report is enumerated after the
    first 100 candidates: the submitter is not rate-limited, a live report of
    the same type at the very place of the submission is stored, and yet the
    call creates a new record. *)
Lemma merge_missed_beyond_first_100 :
  let report := Sample.submit_at_origin "police_check" "B" in
  let st := get_settings Sample.db_crowded (fresh_settings_id Sample.env) in
  unique_ids (reports Sample.db_crowded)
  /\ find_one (rate_limit_query report (now Sample.env) st)
       (reports Sample.db_crowded) = None
  /\ In Sample.near_report (reports Sample.db_crowded)
  /\ duplicate_query report (now Sample.env) st Sample.near_report = true
  /\ within_duplicate_radius report st Sample.near_report = true
  /\ create_report Sample.env Sample.db_crowded report
     = (mkDB [] (reports Sample.db_crowded ++ [new_report Sample.env report st]) [],
        ReportResponse.mk true "Reported. Thanks!" (Some "new-1"))
  /\ ReportResponse.report_id (snd (create_report Sample.env Sample.db_crowded report))
     <> Some (CommunityReport.id Sample.near_report).
Proof.
  cbv zeta.
  assert (Hrl : find_one
            (rate_limit_query (Sample.submit_at_origin "police_check" "B")
               (now Sample.env)
               (get_settings Sample.db_crowded (fresh_settings_id Sample.env)))
            (reports Sample.db_crowded) = None).
  { apply find_one_none, crowded_not_rate_limited. }
  assert (Hdup : first_duplicate (Sample.submit_at_origin "police_check" "B")
            (get_settings Sample.db_crowded (fresh_settings_id Sample.env))
            (to_list 100
               (find (duplicate_query (Sample.submit_at_origin "police_check" "B")
                        (now Sample.env)
                        (get_settings Sample.db_crowded (fresh_settings_id Sample.env)))
                     (reports Sample.db_crowded))) = None).
  { apply first_duplicate_none, crowded_first_100_far. }
  pose proof (create_report_insert_eq _ _ _ Hrl Hdup) as Heq.
  split; [apply crowded_unique_ids|]. split; [exact Hrl|].
  split; [apply crowded_near_is_candidate|].
  split; [apply crowded_near_is_candidate|].
  split; [apply crowded_near_within|].
  split; [exact Heq|].
  rewrite Heq. simpl. discriminate.
Qed.

(** The merge exit in the real-number reading, where no distance raises.
    With pairwise distinct report identifiers in the store,
    when the submitter is not rate-limited and one of the first 100
    enumerated candidates (same type, active, not expired, created within
    [duplicate_time_window_minutes]) lies within [duplicate_radius_meters],
    the call answers [success = true] with the identifier of the first such
    candidate, the message announces its prior confirmations plus one, its
    stored confirmations go up by exactly one, and the collection keeps its
    length: nothing is inserted. *)
Theorem create_report_merges_into_duplicate
    (env : Env) (db : DB) (report : CommunityReportCreate.t) :
  let st := get_settings db (fresh_settings_id env) in
  let candidates :=
    to_list 100 (find (duplicate_query report (now env) st) (reports db)) in
  unique_ids (reports db) ->
  (forall d, In d (reports db) -> rate_limit_query report (now env) st d = false) ->
  (exists d, In d candidates /\ within_duplicate_radius report st d = true) ->
  exists existing before after,
    reports db = before ++ existing :: after
    /\ In existing candidates
    /\ within_duplicate_radius report st existing = true
    /\ (exists earlier later,
          candidates = earlier ++ existing :: later
          /\ forall x, In x earlier -> within_duplicate_radius report st x = false)
    /\ create_report env db report =
         (mkDB (cameras db)
            (before ++ CommunityReport.inc_confirmations existing :: after)
            (settings db),
          ReportResponse.mk true
            ("Confirmed! "
               ++ str_of_int (CommunityReport.confirmations existing + 1)
               ++ " users have reported this.")%string
            (Some (CommunityReport.id existing)))
    /\ CommunityReport.confirmations (CommunityReport.inc_confirmations existing)
       = CommunityReport.confirmations existing + 1
    /\ List.length (reports (fst (create_report env db report)))
       = List.length (reports db).
Proof.
  intros st candidates Huniq Hrl Hex.
  apply find_one_none in Hrl.
  destruct (first_duplicate_exists report st candidates Hex) as [existing Hdup].
  destruct (first_duplicate_some _ _ _ _ Hdup) as (cb & ca & Hsplit & Hw & Hcb).
  assert (Hcand : In existing candidates) by (rewrite Hsplit; apply in_elt).
  destruct (candidate_in_store _ _ _ _ _ _ Hcand) as [Hin _].
  destruct (update_by_id_unique (reports db) existing
              CommunityReport.inc_confirmations Huniq Hin)
    as (before & after & Hdb & Hupd).
  pose proof (create_report_merge_eq env db report existing Hrl Hdup) as Heq.
  rewrite Hupd in Heq.
  exists existing, before, after.
  split; [exact Hdb|]. split; [exact Hcand|]. split; [exact Hw|].
  split; [exists cb, ca; split; [exact Hsplit | exact Hcb]|].
  split; [exact Heq|]. split; [reflexivity|].
  rewrite Heq, Hdb. simpl. rewrite !length_app. reflexivity.
Qed.

Lemma create_report_merges_into_duplicate_witness :
  create_report Sample.env Sample.db_near_only
    (Sample.submit_at_origin "police_check" "B")
  = (mkDB [] [CommunityReport.inc_confirmations Sample.near_report] [],
     ReportResponse.mk true "Confirmed! 2 users have reported this." (Some "near")).
Proof.
  destruct (create_report_merges_into_duplicate Sample.env Sample.db_near_only
              (Sample.submit_at_origin "police_check" "B"))
    as (existing & before & after & Hdb & Hcand & _ & _ & Heq & _).
  - apply distinct_strings_NoDup. reflexivity.
  - intros d [<-|[]]. reflexivity.
  - exists Sample.near_report. split; [now left|].
    apply within_duplicate_radius_same_place; try reflexivity. simpl. lia.
  - rewrite Heq.
    destruct before as [|x [|y before]]; simpl in Hdb; try discriminate Hdb.
    injection Hdb as <- <-. reflexivity.
Defined.

(** C9.  A merge rewrites one stored record, the matched one, and only its
    [confirmations]: identifier, coordinate, type, submitter, creation time,
    expiry time and active flag are as before, every other report is as
    before and in its place, and the cameras and settings collections are
    untouched. *)
Theorem merge_changes_confirmations_only
    (env : Env) (db : DB) (report : CommunityReportCreate.t)
    (existing : CommunityReport.t) :
  let st := get_settings db (fresh_settings_id env) in
  unique_ids (reports db) ->
  find_one (rate_limit_query report (now env) st) (reports db) = None ->
  first_duplicate report st
    (to_list 100 (find (duplicate_query report (now env) st) (reports db)))
  = Some existing ->
  exists before after merged,
    reports db = before ++ existing :: after
    /\ fst (create_report env db report)
       = mkDB (cameras db) (before ++ merged :: after) (settings db)
    /\ CommunityReport.id merged = CommunityReport.id existing
    /\ CommunityReport.latitude merged = CommunityReport.latitude existing
    /\ CommunityReport.longitude merged = CommunityReport.longitude existing
    /\ CommunityReport.report_type merged = CommunityReport.report_type existing
    /\ CommunityReport.user_id merged = CommunityReport.user_id existing
    /\ CommunityReport.created_at merged = CommunityReport.created_at existing
    /\ CommunityReport.expires_at merged = CommunityReport.expires_at existing
    /\ CommunityReport.is_active merged = CommunityReport.is_active existing.
Proof.
  intros st Huniq Hrl Hdup.
  destruct (first_duplicate_some _ _ _ _ Hdup) as (cb & ca & Hsplit & _).
  assert (Hcand : In existing
            (to_list 100 (find (duplicate_query report (now env) st) (reports db))))
    by (rewrite Hsplit; apply in_elt).
  destruct (candidate_in_store _ _ _ _ _ _ Hcand) as [Hin _].
  destruct (update_by_id_unique (reports db) existing
              CommunityReport.inc_confirmations Huniq Hin)
    as (before & after & Hdb & Hupd).
  exists before, after, (CommunityReport.inc_confirmations existing).
  split; [exact Hdb|].
  rewrite (create_report_merge_eq env db report existing Hrl Hdup), Hupd.
  repeat split.
Qed.

Lemma merge_changes_confirmations_only_witness :
  exists merged,
    fst (create_report Sample.env Sample.db_near_only
           (Sample.submit_at_origin "police_check" "B"))
    = mkDB [] [merged] []
    /\ CommunityReport.expires_at merged = 3710000000.
Proof.
  assert (Hw : within_duplicate_radius (Sample.submit_at_origin "police_check" "B")
                 (get_settings Sample.db_near_only (fresh_settings_id Sample.env))
                 Sample.near_report = true).
  { apply within_duplicate_radius_same_place; try reflexivity. simpl. lia. }
  destruct (merge_changes_confirmations_only Sample.env Sample.db_near_only
              (Sample.submit_at_origin "police_check" "B") Sample.near_report)
    as (before & after & merged & Hdb & Heq & _ & _ & _ & _ & _ & _ & He & _).
  - apply distinct_strings_NoDup. reflexivity.
  - reflexivity.
  - change (first_duplicate (Sample.submit_at_origin "police_check" "B")
              (get_settings Sample.db_near_only (fresh_settings_id Sample.env))
              [Sample.near_report] = Some Sample.near_report).
    cbn [first_duplicate]. now rewrite Hw.
  - exists merged. split; [|exact He].
    rewrite Heq.
    destruct before as [|x [|y before]]; simpl in Hdb; try discriminate Hdb.
    injection Hdb as <-. reflexivity.
Defined.

(** The cap of the merge loop in the real-number reading, where no
    distance raises.  The merge loop runs over the first 100 enumerated candidates
    only.  When the submitter is not rate-limited, none of those 100 lies
    within [duplicate_radius_meters] and a later candidate does, nothing is
    merged and a new record is appended. *)
Theorem merge_scan_stops_at_100
    (env : Env) (db : DB) (report : CommunityReportCreate.t) :
  let st := get_settings db (fresh_settings_id env) in
  let matching := find (duplicate_query report (now env) st) (reports db) in
  (forall d, In d (reports db) -> rate_limit_query report (now env) st d = false) ->
  (forall d, In d (to_list 100 matching) -> within_duplicate_radius report st d = false) ->
  (exists d, In d (skipn 100 matching) /\ within_duplicate_radius report st d = true) ->
  create_report env db report =
    (mkDB (cameras db) (reports db ++ [new_report env report st]) (settings db),
     ReportResponse.mk true "Reported. Thanks!" (Some (fresh_report_id env)))
  /\ (List.length (to_list 100 matching) <= 100)%nat.
Proof.
  intros st matching Hrl Hfirst _.
  split; [|apply to_list_length].
  apply create_report_insert_eq.
  - now apply find_one_none.
  - apply first_duplicate_none. exact Hfirst.
Qed.

Lemma merge_scan_stops_at_100_witness :
  let report := Sample.submit_at_origin "police_check" "B" in
  List.length (reports (fst (create_report Sample.env Sample.db_crowded report)))
  = 102%nat
  /\ ReportResponse.report_id (snd (create_report Sample.env Sample.db_crowded report))
     = Some "new-1".
Proof.
  cbv zeta.
  destruct (merge_scan_stops_at_100 Sample.env Sample.db_crowded
              (Sample.submit_at_origin "police_check" "B")) as [Heq _].
  - apply crowded_not_rate_limited.
  - apply crowded_first_100_far.
  - exists Sample.near_report. split.
    + rewrite crowded_rest. now left.
    + apply crowded_near_within.
  - rewrite Heq. cbn [fst snd reports ReportResponse.report_id Sample.env
                       fresh_report_id Sample.db_crowded].
    split; [|reflexivity].
    rewrite !length_app, crowded_far_length. reflexivity.
Defined.

(** ** Sorting by key *)

Section SortFacts.
Context {A : Type} (key : A -> Z).

Lemma insert_by_key_perm (x : A) (l : list A) :
  Permutation (insert_by_key key x l) (x :: l).
Proof.
  induction l as [|y rest IH]; simpl; [reflexivity|].
  destruct (key x <=? key y); [reflexivity|].
  rewrite IH. apply perm_swap.
Qed.

Lemma sort_by_key_perm (l : list A) : Permutation (sort_by_key key l) l.
Proof.
  induction l as [|x rest IH]; simpl; [reflexivity|].
  rewrite insert_by_key_perm. now constructor.
Qed.

Lemma insert_by_key_sorted (x : A) (l : list A) :
  StronglySorted Z.le (map key l) ->
  StronglySorted Z.le (map key (insert_by_key key x l)).
Proof.
  induction l as [|y rest IH]; simpl; intros Hs.
  - repeat constructor.
  - destruct (key x <=? key y) eqn:Hxy.
    + apply Z.leb_le in Hxy. simpl. constructor; [exact Hs|].
      inversion Hs as [|? ? Hrest Hall]; subst.
      constructor; [exact Hxy|].
      eapply Forall_impl; [|exact Hall]. intros z Hz. lia.
    + apply Z.leb_gt in Hxy. inversion Hs as [|? ? Hrest Hall]; subst.
      simpl. constructor; [now apply IH|].
      apply Forall_forall. intros k Hk.
      apply in_map_iff in Hk as (z & <- & Hz).
      apply (Permutation_in _ (insert_by_key_perm x rest)) in Hz.
      destruct Hz as [<-|Hz]; [lia|].
      rewrite Forall_forall in Hall. apply Hall. now apply in_map.
Qed.

Lemma sort_by_key_sorted (l : list A) :
  StronglySorted Z.le (map key (sort_by_key key l)).
Proof.
  induction l as [|x rest IH]; simpl; [constructor|].
  now apply insert_by_key_sorted.
Qed.

Lemma sort_by_key_Forall (P : A -> Prop) (l : list A) :
  Forall P l -> Forall P (sort_by_key key l).
Proof.
  intros H. eapply Permutation_Forall; [|exact H].
  symmetry. apply sort_by_key_perm.
Qed.
End SortFacts.

(** ** Proximity queries *)

Section NearbyFacts.
Variables (lat lon radius_km : R).

Lemma collect_cameras_Forall (cams : list SpeedCamera.t) :
  Forall (fun x =>
            In (nc_camera x) cams
            /\ (camera_distance lat lon (nc_camera x) <= radius_km * 1000)%R
            /\ nc_distance_meters x = py_round (camera_distance lat lon (nc_camera x)))
         (collect_cameras lat lon radius_km cams).
Proof.
  induction cams as [|cam rest IH]; simpl; [constructor|].
  assert (IH' : Forall (fun x =>
            In (nc_camera x) (cam :: rest)
            /\ (camera_distance lat lon (nc_camera x) <= radius_km * 1000)%R
            /\ nc_distance_meters x = py_round (camera_distance lat lon (nc_camera x)))
         (collect_cameras lat lon radius_km rest)).
  { eapply Forall_impl; [|exact IH]. intros x (H1 & H2 & H3).
    split; [now right | split; assumption]. }
  destruct (Rleb (camera_distance lat lon cam) (radius_km * 1000)) eqn:Hd;
    [|exact IH'].
  constructor; [|exact IH']. simpl.
  split; [now left|]. split; [now apply Rleb_true | reflexivity].
Qed.

Lemma collect_reports_Forall (now : datetime) (rs : list CommunityReport.t) :
  Forall (fun x =>
            In (nr_report x) rs
            /\ (report_distance lat lon (nr_report x) <= radius_km * 1000)%R
            /\ nr_distance_meters x = py_round (report_distance lat lon (nr_report x)))
         (collect_reports lat lon radius_km now rs).
Proof.
  induction rs as [|r rest IH]; simpl; [constructor|].
  assert (IH' : Forall (fun x =>
            In (nr_report x) (r :: rest)
            /\ (report_distance lat lon (nr_report x) <= radius_km * 1000)%R
            /\ nr_distance_meters x = py_round (report_distance lat lon (nr_report x)))
         (collect_reports lat lon radius_km now rest)).
  { eapply Forall_impl; [|exact IH]. intros x (H1 & H2 & H3).
    split; [now right | split; assumption]. }
  destruct (Rleb (report_distance lat lon r) (radius_km * 1000)) eqn:Hd;
    [|exact IH'].
  constructor; [|exact IH']. simpl.
  split; [now left|]. split; [now apply Rleb_true | reflexivity].
Qed.

Lemma get_nearby_reports_source (now : datetime) (db : DB) :
  Forall (fun x =>
            In (nr_report x) (reports db)
            /\ report_box_query (get_bounding_box lat lon radius_km) now (nr_report x)
               = true)
         (get_nearby_reports lat lon radius_km now db).
Proof.
  unfold get_nearby_reports. apply sort_by_key_Forall.
  eapply Forall_impl; [|apply collect_reports_Forall].
  intros x (Hin & _). now apply to_list_in, find_in in Hin.
Qed.
End NearbyFacts.

Section NearbyEvaluation.
Local Open Scope R_scope.

Lemma PI_8_digits : 314159265 / 100000000 < PI < 314159266 / 100000000.
Proof.
  pose proof (PI_2_3_7_ineq 4) as [Hlo Hhi].
  unfold sum_f_R0, tg_alt, PI_2_3_7_tg, Ratan_seq in Hlo, Hhi.
  simpl in Hlo, Hhi. split; lra.
Qed.

Lemma radians_0 : radians 0 = 0.
Proof. unfold radians. field. Qed.

Lemma haversine_equator_to_pole :
  haversine_distance 0 0 90 0 = EARTH_RADIUS * (PI / 2).
Proof.
  assert (Hhalf : 0 < sqrt (1 / 2)) by (apply sqrt_lt_R0; lra).
  assert (Ha : haversine_a 0 0 90 0 = 1 / 2).
  { unfold haversine_a, radians. cbv zeta.
    replace ((90 - 0) * PI / 180 / 2) with (PI / 4) by field.
    replace ((0 - 0) * PI / 180 / 2) with 0 by field.
    rewrite sin_PI4, sin_0.
    replace ((1 / sqrt 2) ^ 2) with (/ (sqrt 2 * sqrt 2)).
    - rewrite sqrt_sqrt by lra. lra.
    - field. apply Rgt_not_eq, sqrt_lt_R0. lra. }
  unfold haversine_distance. cbv zeta. rewrite Ha.
  replace (1 - 1 / 2) with (1 / 2) by field.
  unfold atan2. destruct (Rlt_dec 0 (sqrt (1 / 2))) as [_|H]; [|contradiction].
  replace (sqrt (1 / 2) / sqrt (1 / 2)) with 1 by (field; lra).
  rewrite atan_1. field.
Qed.

Lemma two_cameras_result :
  get_nearby_cameras 0 0 1 Sample.db_two_cameras
  = [mkNearbyCamera (Sample.camera_at_origin "cam-1") 0;
     mkNearbyCamera (Sample.camera_at_origin "cam-2") 0].
Proof.
  assert (Hq : forall cid,
             camera_box_query (get_bounding_box 0 0 1) (Sample.camera_at_origin cid)
             = true).
  { intros cid. unfold camera_box_query, Sample.camera_at_origin.
    cbn [SpeedCamera.latitude SpeedCamera.longitude SpeedCamera.is_active].
    rewrite in_box_center by lra. reflexivity. }
  assert (Hd : forall cid, camera_distance 0 0 (Sample.camera_at_origin cid) = 0).
  { intros cid. unfold camera_distance, Sample.camera_at_origin.
    cbn [SpeedCamera.latitude SpeedCamera.longitude].
    apply haversine_distance_same. }
  assert (Hle : Rleb 0 (1 * 1000) = true) by (apply Rleb_true; lra).
  unfold get_nearby_cameras, Sample.db_two_cameras, find, to_list.
  cbn [cameras filter]. rewrite !Hq. cbn [firstn collect_cameras].
  rewrite !Hd, Hle, py_round_0. reflexivity.
Qed.

Lemma far_camera_result :
  get_nearby_cameras 0 0 20016 Sample.db_far_camera
  = [mkNearbyCamera Sample.camera_far_away (py_round (EARTH_RADIUS * PI))].
Proof.
  pose proof PI_8_digits as Hpi.
  assert (Hq : camera_box_query (get_bounding_box 0 0 20016) Sample.camera_far_away
               = true).
  { unfold camera_box_query, Sample.camera_far_away, in_box, get_bounding_box.
    cbn [SpeedCamera.latitude SpeedCamera.longitude SpeedCamera.is_active
         min_lat max_lat min_lon max_lon].
    rewrite radians_0, cos_0.
    rewrite !andb_true_iff, !Rleb_true. repeat split; lra. }
  assert (Hd : camera_distance 0 0 Sample.camera_far_away = EARTH_RADIUS * PI).
  { apply haversine_origin_antimeridian. }
  assert (Hle : Rleb (EARTH_RADIUS * PI) (20016 * 1000) = true).
  { apply Rleb_true. unfold EARTH_RADIUS. lra. }
  unfold get_nearby_cameras, Sample.db_far_camera, find, to_list.
  cbn [cameras filter]. rewrite Hq. cbn [firstn collect_cameras].
  rewrite Hd, Hle. reflexivity.
Qed.

Lemma half_meridian_not_integer (z : Z) : IZR z <> EARTH_RADIUS * PI.
Proof.
  pose proof PI_8_digits as Hpi. unfold EARTH_RADIUS. intros Heq.
  assert (Hlo : IZR 20015086 < IZR z) by (rewrite Heq; lra).
  assert (Hhi : IZR z < IZR 20015087) by (rewrite Heq; lra).
  apply lt_IZR in Hlo, Hhi. lia.
Qed.

Lemma expiry_result :
  map nr_report (get_nearby_reports 0 0 1 600000000%Z Sample.db_expiry)
  = [Sample.live_report].
Proof.
  assert (Hbox : in_box (get_bounding_box 0 0 1) 0 0 = true)
    by (apply in_box_center; lra).
  assert (Hq1 : report_box_query (get_bounding_box 0 0 1) 600000000%Z
                  Sample.expired_report = false).
  { unfold report_box_query, Sample.expired_report, Sample.report_at_origin.
    cbn [CommunityReport.latitude CommunityReport.longitude
         CommunityReport.is_active CommunityReport.expires_at].
    rewrite Hbox. reflexivity. }
  assert (Hq2 : report_box_query (get_bounding_box 0 0 1) 600000000%Z
                  Sample.live_report = true).
  { unfold report_box_query, Sample.live_report, Sample.report_at_origin.
    cbn [CommunityReport.latitude CommunityReport.longitude
         CommunityReport.is_active CommunityReport.expires_at].
    rewrite Hbox. reflexivity. }
  assert (Hd : report_distance 0 0 Sample.live_report = 0).
  { apply haversine_distance_same. }
  assert (Hle : Rleb 0 (1 * 1000) = true) by (apply Rleb_true; lra).
  unfold get_nearby_reports, Sample.db_expiry, find, to_list.
  cbn [reports filter]. rewrite Hq1, Hq2. cbn [firstn collect_reports].
  rewrite Hd, Hle. reflexivity.
Qed.
End NearbyEvaluation.

(** C6 (as stated) fails twice.  Two cameras at the same place come back
    with the same [distance_meters], so the list is not strictly ascending;
    and [distance_meters] is the distance rounded to an integer, which for a
    camera half a world away differs from the distance itself. *)
Lemma nearby_cameras_ties_and_rounding :
  (map nc_distance_meters (get_nearby_cameras 0 0 1 Sample.db_two_cameras) = [0; 0]
   /\ ~ StronglySorted Z.lt
          (map nc_distance_meters (get_nearby_cameras 0 0 1 Sample.db_two_cameras)))
  /\ (exists x,
        In x (get_nearby_cameras 0 0 20016 Sample.db_far_camera)
        /\ IZR (nc_distance_meters x) <> camera_distance 0 0 (nc_camera x)).
Proof.
  split.
  - rewrite two_cameras_result. split; [reflexivity|].
    simpl. intros Hs. inversion Hs as [|? ? _ Hall]; subst.
    inversion Hall as [|? ? Hlt _]; subst. lia.
  - rewrite far_camera_result.
    exists (mkNearbyCamera Sample.camera_far_away (py_round (EARTH_RADIUS * PI))).
    split; [now left|]. cbn [nc_distance_meters nc_camera].
    unfold camera_distance, Sample.camera_far_away.
    cbn [SpeedCamera.latitude SpeedCamera.longitude].
    rewrite haversine_origin_antimeridian. apply half_meridian_not_integer.
Qed.

(** C6 (amended).  Every camera and every report that a proximity query
    returns is a stored one whose great-circle distance to the centre is at
    most [radius_km * 1000] metres; its [distance_meters] is that distance
    rounded to the nearest integer (off by at most half a metre); and the
    list is in non-decreasing order of [distance_meters]. *)
Theorem nearby_within_radius_rounded_and_sorted
    (lat lon radius_km : R) (now : datetime) (db : DB) :
  (Forall (fun x =>
             In (nc_camera x) (cameras db)
             /\ (camera_distance lat lon (nc_camera x) <= radius_km * 1000)%R
             /\ nc_distance_meters x = py_round (camera_distance lat lon (nc_camera x))
             /\ (Rabs (IZR (nc_distance_meters x)
                       - camera_distance lat lon (nc_camera x)) <= 1 / 2)%R)
          (get_nearby_cameras lat lon radius_km db)
   /\ StronglySorted Z.le
        (map nc_distance_meters (get_nearby_cameras lat lon radius_km db)))
  /\ (Forall (fun x =>
                In (nr_report x) (reports db)
                /\ (report_distance lat lon (nr_report x) <= radius_km * 1000)%R
                /\ nr_distance_meters x
                   = py_round (report_distance lat lon (nr_report x))
                /\ (Rabs (IZR (nr_distance_meters x)
                          - report_distance lat lon (nr_report x)) <= 1 / 2)%R)
             (get_nearby_reports lat lon radius_km now db)
      /\ StronglySorted Z.le
           (map nr_distance_meters (get_nearby_reports lat lon radius_km now db))).
Proof.
  split; split; try apply sort_by_key_sorted.
  - unfold get_nearby_cameras. apply sort_by_key_Forall.
    eapply Forall_impl; [|apply collect_cameras_Forall].
    intros x (Hin & Hd & Hr). apply to_list_in, find_in in Hin.
    split; [apply Hin|]. split; [exact Hd|]. split; [exact Hr|].
    rewrite Hr. apply py_round_nearest.
  - unfold get_nearby_reports. apply sort_by_key_Forall.
    eapply Forall_impl; [|apply collect_reports_Forall].
    intros x (Hin & Hd & Hr). apply to_list_in, find_in in Hin.
    split; [apply Hin|]. split; [exact Hd|]. split; [exact Hr|].
    rewrite Hr. apply py_round_nearest.
Qed.

(** C7.  A proximity query over reports returns stored reports with
    [expires_at > now] only: a stored report with [expires_at <= now] is
    absent from the result whatever its active flag and position, and it is
    the read-time filter that hides it, the store being left as it is. *)
Theorem expired_reports_are_not_returned
    (lat lon radius_km : R) (now : datetime) (db : DB) (r : CommunityReport.t) :
  In r (reports db) ->
  CommunityReport.expires_at r <= now ->
  ~ In r (map nr_report (get_nearby_reports lat lon radius_km now db))
  /\ Forall (fun x => In (nr_report x) (reports db)
                      /\ now < CommunityReport.expires_at (nr_report x))
       (get_nearby_reports lat lon radius_km now db).
Proof.
  intros _ Hexp.
  assert (Hall : Forall (fun x => In (nr_report x) (reports db)
                      /\ now < CommunityReport.expires_at (nr_report x))
       (get_nearby_reports lat lon radius_km now db)).
  { eapply Forall_impl; [|apply get_nearby_reports_source].
    intros x [Hin Hq]. split; [exact Hin|].
    unfold report_box_query in Hq. apply andb_prop in Hq as [_ Hq].
    now apply Z.ltb_lt in Hq. }
  split; [|exact Hall].
  intros Hin. apply in_map_iff in Hin as (x & <- & Hx).
  rewrite Forall_forall in Hall. destruct (Hall x Hx) as [_ Hlt]. lia.
Qed.

Lemma expired_reports_are_not_returned_witness :
  In Sample.expired_report (reports Sample.db_expiry)
  /\ CommunityReport.is_active Sample.expired_report = true
  /\ ~ In Sample.expired_report
       (map nr_report (get_nearby_reports 0 0 1 600000000 Sample.db_expiry)).
Proof.
  split; [simpl; now left|]. split; [reflexivity|].
  apply (expired_reports_are_not_returned 0 0 1 600000000 Sample.db_expiry
           Sample.expired_report).
  - simpl. now left.
  - simpl. lia.
Defined.

(** C8 (as stated) fails on the longitude side: the points (0, 180) and
    (0, -180) are the same place, at distance 0, and yet the second one is
    outside the longitude interval of the box around the first. *)
Lemma bounding_box_misses_across_antimeridian :
  (haversine_distance 0 180 0 (-180) <= 1 * 1000)%R
  /\ ~ (min_lon (get_bounding_box 0 180 1) <= -180
        <= max_lon (get_bounding_box 0 180 1))%R.
Proof.
  split.
  - rewrite haversine_across_antimeridian. lra.
  - unfold get_bounding_box. cbn [min_lon max_lon].
    rewrite radians_0, cos_0. lra.
Qed.

(** C8 (amended).  For a centre and a point with latitudes in [-90, 90],
    a great-circle distance of at most [radius_km] kilometres puts the
    latitude of the point inside the latitude interval of
    [get_bounding_box], which is [lat - radius_km / 111.0,
    lat + radius_km / 111.0].  Nothing is promised for the longitude
    interval. *)
Theorem bounding_box_contains_latitude
    (lat lon lat2 lon2 radius_km : R) :
  (-90 <= lat <= 90)%R -> (-90 <= lat2 <= 90)%R ->
  (haversine_distance lat lon lat2 lon2 <= radius_km * 1000)%R ->
  (min_lat (get_bounding_box lat lon radius_km) <= lat2
   <= max_lat (get_bounding_box lat lon radius_km))%R
  /\ min_lat (get_bounding_box lat lon radius_km) = (lat - radius_km / 111)%R
  /\ max_lat (get_bounding_box lat lon radius_km) = (lat + radius_km / 111)%R.
Proof.
  intros H1 H2 Hd. split; [|split; reflexivity].
  unfold get_bounding_box. cbn [min_lat max_lat].
  now apply (latitude_within_bound lat lon lat2 lon2 radius_km).
Qed.

Lemma bounding_box_contains_latitude_witness :
  (min_lat (get_bounding_box 0 0 10008) <= 90
   <= max_lat (get_bounding_box 0 0 10008))%R.
Proof.
  apply (bounding_box_contains_latitude 0 0 90 0 10008).
  - lra.
  - lra.
  - rewrite haversine_equator_to_pole. unfold EARTH_RADIUS.
    pose proof PI_8_digits. lra.
Defined.

(** * Further properties of the code *)

(** ** The distance function *)

Section DistanceFacts.
Local Open Scope R_scope.

Lemma haversine_a_sym (lat1 lon1 lat2 lon2 : R) :
  haversine_a lat1 lon1 lat2 lon2 = haversine_a lat2 lon2 lat1 lon1.
Proof.
  unfold haversine_a, radians. cbv zeta.
  replace ((lat2 - lat1) * PI / 180 / 2) with (- ((lat1 - lat2) * PI / 180 / 2))
    by field.
  replace ((lon2 - lon1) * PI / 180 / 2) with (- ((lon1 - lon2) * PI / 180 / 2))
    by field.
  rewrite !sin_neg. ring.
Qed.

(** X1.  [haversine_distance] of a point to itself is 0, and exchanging the
    two points does not change the distance. *)
Theorem haversine_distance_zero_and_symmetric (lat1 lon1 lat2 lon2 : R) :
  haversine_distance lat1 lon1 lat1 lon1 = 0
  /\ haversine_distance lat1 lon1 lat2 lon2 = haversine_distance lat2 lon2 lat1 lon1.
Proof.
  split; [apply haversine_distance_same|].
  unfold haversine_distance. cbv zeta.
  now rewrite (haversine_a_sym lat1 lon1 lat2 lon2).
Qed.

Lemma atan2_first_quadrant (y x : R) :
  0 <= y -> 0 <= x -> 0 <= atan2 y x <= PI / 2.
Proof.
  intros Hy Hx. pose proof PI_RGT_0 as Hpi. unfold atan2.
  destruct (Rlt_dec 0 x) as [Hpos|Hnpos].
  - split.
    + rewrite <- atan_0. apply atan_le.
      apply Rmult_le_pos; [exact Hy | left; now apply Rinv_0_lt_compat].
    + left. apply atan_bound.
  - destruct (Rlt_dec x 0) as [Hneg|_]; [lra|].
    destruct (Rlt_dec 0 y) as [_|_]; [lra|].
    destruct (Rlt_dec y 0) as [Hyn|_]; lra.
Qed.

(** In exact arithmetic, whatever the four coordinates, the distance is never
    negative and never exceeds half the circumference of the sphere,
    6371000 * pi metres, which is below 20015087. *)
Theorem haversine_distance_range (lat1 lon1 lat2 lon2 : R) :
  0 <= haversine_distance lat1 lon1 lat2 lon2 <= EARTH_RADIUS * PI
  /\ EARTH_RADIUS * PI < 20015087.
Proof.
  pose proof PI_8_digits as Hpi.
  destruct (atan2_first_quadrant
              (sqrt (haversine_a lat1 lon1 lat2 lon2))
              (sqrt (1 - haversine_a lat1 lon1 lat2 lon2)))
    as [Hlo Hhi]; try apply sqrt_pos.
  unfold haversine_distance, EARTH_RADIUS. cbv zeta. split; [split|]; nra.
Qed.

(** X3.  Shifting the longitude of one point by a full turn, 360 degrees,
    does not change the distance: the function does not need normalised
    longitudes. *)
Theorem haversine_distance_full_turn (lat1 lon1 lat2 lon2 : R) :
  haversine_distance lat1 lon1 lat2 (lon2 + 360)
  = haversine_distance lat1 lon1 lat2 lon2.
Proof.
  assert (Ha : haversine_a lat1 lon1 lat2 (lon2 + 360)
               = haversine_a lat1 lon1 lat2 lon2).
  { unfold haversine_a, radians. cbv zeta.
    replace ((lon2 + 360 - lon1) * PI / 180 / 2)
      with ((lon2 - lon1) * PI / 180 / 2 + PI) by field.
    rewrite neg_sin. ring. }
  unfold haversine_distance. cbv zeta. now rewrite Ha.
Qed.

(** X4.  For a centre with latitude in [-90, 90] and a radius that is not
    negative, the centre itself passes the bounding-box filter of the
    proximity queries. *)
Theorem bounding_box_contains_center (lat lon radius_km : R) :
  -90 <= lat <= 90 -> 0 <= radius_km ->
  in_box (get_bounding_box lat lon radius_km) lat lon = true
  /\ min_lat (get_bounding_box lat lon radius_km) <= lat
     <= max_lat (get_bounding_box lat lon radius_km)
  /\ min_lon (get_bounding_box lat lon radius_km) <= lon
     <= max_lon (get_bounding_box lat lon radius_km).
Proof.
  intros Hlat Hr.
  pose proof (in_box_center lat lon radius_km Hlat Hr) as Hbox.
  split; [exact Hbox|].
  unfold in_box in Hbox. rewrite !andb_true_iff, !Rleb_true in Hbox. lra.
Qed.

Lemma bounding_box_contains_center_witness :
  in_box (get_bounding_box 51.5 (-0.12) 5) 51.5 (-0.12) = true.
Proof.
  apply (bounding_box_contains_center 51.5 (-0.12) 5); lra.
Defined.
End DistanceFacts.

(** ** Settings *)

Lemma get_settings_after_update (db : DB) (s : AppSettings.t) (fresh_id : string) :
  get_settings (fst (update_settings db s)) fresh_id = s.
Proof.
  unfold update_settings, get_settings, replace_one_upsert.
  now destruct (settings db).
Qed.

(** X5.  Whatever the database holds, [update_settings] followed by
    [get_settings] gives back exactly the settings that were sent, the
    handler answers with them, the settings collection still holds a single
    document when it held at most one, and cameras and reports are not
    touched. *)
Theorem update_settings_round_trip (db : DB) (s : AppSettings.t) (fresh_id : string) :
  get_settings (fst (update_settings db s)) fresh_id = s
  /\ snd (update_settings db s) = s
  /\ List.length (settings (fst (update_settings db s)))
     = Nat.max 1 (List.length (settings db))
  /\ cameras (fst (update_settings db s)) = cameras db
  /\ reports (fst (update_settings db s)) = reports db.
Proof.
  unfold update_settings, get_settings, replace_one_upsert.
  destruct (settings db) as [|d rest]; simpl; repeat split.
Qed.

(** In the real-number reading, where no distance raises, new settings are
    in force for the very next submission: a report
    created right after [update_settings] expires after the TTL of the
    settings just stored. *)
Theorem new_settings_apply_to_next_report
    (env : Env) (db : DB) (s : AppSettings.t) (report : CommunityReportCreate.t) :
  let db' := fst (update_settings db s) in
  (forall d, In d (reports db) -> rate_limit_query report (now env) s d = false) ->
  (forall d,
     In d (to_list 100 (find (duplicate_query report (now env) s) (reports db))) ->
     within_duplicate_radius report s d = false) ->
  exists r,
    create_report env db' report
    = (mkDB (cameras db) (reports db ++ [r]) (settings db'),
       ReportResponse.mk true "Reported. Thanks!" (Some (fresh_report_id env)))
    /\ CommunityReport.expires_at r =
         now env
         + (if String.eqb (CommunityReportCreate.report_type report) "mobile_camera"
            then AppSettings.mobile_camera_ttl_minutes s
            else AppSettings.police_check_ttl_minutes s) * 60000000.
Proof.
  intros db' Hrl Hdup.
  assert (Hst : get_settings db' (fresh_settings_id env) = s)
    by apply get_settings_after_update.
  exists (new_report env report s). split.
  - rewrite (create_report_insert_eq env db' report); rewrite ?Hst.
    + reflexivity.
    + apply find_one_none. exact Hrl.
    + apply first_duplicate_none. exact Hdup.
  - reflexivity.
Qed.

Lemma new_settings_apply_to_next_report_witness :
  exists r,
    fst (create_report Sample.env
           (fst (update_settings Sample.empty_db Scenario.short_ttl))
           (Sample.submit_at_origin "mobile_camera" "A"))
    = mkDB [] [r] [Scenario.short_ttl]
    /\ CommunityReport.expires_at r = 600000000 + 10 * 60000000.
Proof.
  destruct (new_settings_apply_to_next_report Sample.env Sample.empty_db
              Scenario.short_ttl (Sample.submit_at_origin "mobile_camera" "A"))
    as (r & Heq & He).
  - intros d [].
  - intros d [].
  - exists r. rewrite Heq. split; [reflexivity | exact He].
Defined.

(** ** Camera administration *)

Lemma to_list_all {A : Type} (n : nat) (l : list A) :
  (List.length l <= n)%nat -> to_list n l = l.
Proof. intros H. unfold to_list. now apply firstn_all2. Qed.

Lemma to_list_full {A : Type} (n : nat) (l l' : list A) :
  (n <= List.length l)%nat -> to_list n (l ++ l') = to_list n l.
Proof.
  intros H. unfold to_list. rewrite firstn_app.
  replace (n - List.length l)%nat with 0%nat by lia. simpl. apply app_nil_r.
Qed.

(** X7.  [create_camera] stores an active camera with confidence 100 and
    answers with it.  While fewer than 10000 active cameras are stored, the
    new camera is the last entry of [get_all_cameras]; from 10000 on it is
    stored but [get_all_cameras] does not show it. *)
Theorem created_camera_is_listed
    (cenv : CameraEnv) (db : DB) (camera : SpeedCameraCreate.t) :
  let active := find (fun cam => Bool.eqb (SpeedCamera.is_active cam) true) (cameras db) in
  let db' := fst (create_camera cenv db camera) in
  let cam := snd (create_camera cenv db camera) in
  cameras db' = cameras db ++ [cam]
  /\ SpeedCamera.is_active cam = true
  /\ SpeedCamera.confidence cam = 100
  /\ SpeedCamera.id cam = fresh_camera_id cenv
  /\ ((List.length active < ALL_CAMERAS_LIMIT)%nat ->
      get_all_cameras db' = get_all_cameras db ++ [cam])
  /\ ((ALL_CAMERAS_LIMIT <= List.length active)%nat ->
      get_all_cameras db' = get_all_cameras db).
Proof.
  intros active db' cam.
  assert (Hfind : find (fun c => Bool.eqb (SpeedCamera.is_active c) true) (cameras db')
                  = active ++ [cam]).
  { unfold db', create_camera, insert_one. cbn [fst cameras].
    rewrite find_app. reflexivity. }
  repeat split.
  - intros Hlt. unfold get_all_cameras. rewrite Hfind. fold active.
    rewrite !to_list_all; [reflexivity | lia |].
    rewrite length_app. simpl. lia.
  - intros Hge. unfold get_all_cameras. rewrite Hfind. fold active.
    apply to_list_full. lia.
Qed.

Lemma created_camera_is_listed_witness :
  get_all_cameras (fst (create_camera Scenario.camera_env Sample.db_two_cameras
                          Scenario.camera_payload))
  = [Sample.camera_at_origin "cam-1"; Sample.camera_at_origin "cam-2";
     new_camera Scenario.camera_env Scenario.camera_payload].
Proof.
  destruct (created_camera_is_listed Scenario.camera_env Sample.db_two_cameras
              Scenario.camera_payload) as (_ & _ & _ & _ & Hlisted & _).
  rewrite Hlisted.
  - unfold get_all_cameras. rewrite to_list_all; [reflexivity|].
    apply Nat.leb_le. reflexivity.
  - apply Nat.ltb_lt. reflexivity.
Defined.

Lemma delete_many_all {A : Type} (coll : list A) :
  delete_many (fun _ => true) coll = [].
Proof. unfold delete_many. induction coll; simpl; auto. Qed.

Lemma seed_insert_spec (cenv : nat -> CameraEnv) (data : list SpeedCameraCreate.t) :
  forall (i : nat) (coll : list SpeedCamera.t),
    seed_insert cenv i data coll
    = coll ++ map (fun p => new_camera (cenv (fst p)) (snd p))
                  (combine (seq i (List.length data)) data).
Proof.
  induction data as [|d rest IH]; intros i coll; simpl.
  - now rewrite app_nil_r.
  - rewrite IH. unfold insert_one. now rewrite <- app_assoc.
Qed.

(** X8.  Whatever cameras were stored before, after [seed_sample_cameras]
    the cameras collection holds exactly the 20 sample cameras, in the order
    of the table, all active with confidence 100 and no direction; the
    answer reports the count 20; reports and settings are not touched; and
    [get_all_cameras] returns the whole collection. *)
Theorem seed_replaces_all_cameras (cenv : nat -> CameraEnv) (db : DB) :
  let db' := fst (seed_sample_cameras cenv db) in
  cameras db'
  = map (fun p => new_camera (cenv (fst p)) (snd p))
        (combine (seq 0 20) sample_cameras)
  /\ List.length (cameras db') = 20%nat
  /\ snd (seed_sample_cameras cenv db) = ("Seeded 20 sample cameras", 20)
  /\ Forall (fun cam =>
               SpeedCamera.is_active cam = true
               /\ SpeedCamera.confidence cam = 100
               /\ SpeedCamera.direction cam = None)
            (cameras db')
  /\ reports db' = reports db
  /\ settings db' = settings db
  /\ get_all_cameras db' = cameras db'.
Proof.
  intros db'.
  assert (Hcams : cameras db'
            = map (fun p => new_camera (cenv (fst p)) (snd p))
                  (combine (seq 0 20) sample_cameras)).
  { unfold db', seed_sample_cameras. cbn [fst cameras].
    rewrite delete_many_all, seed_insert_spec. reflexivity. }
  assert (Hlen : List.length (cameras db') = 20%nat).
  { rewrite Hcams, length_map, length_combine. reflexivity. }
  assert (Hall : Forall (fun cam =>
               SpeedCamera.is_active cam = true
               /\ SpeedCamera.confidence cam = 100
               /\ SpeedCamera.direction cam = None)
            (cameras db')).
  { rewrite Hcams. apply Forall_forall. intros cam Hin.
    apply in_map_iff in Hin as ([i d] & <- & Hin).
    apply in_combine_r in Hin. cbn [fst snd new_camera
      SpeedCamera.is_active SpeedCamera.confidence SpeedCamera.direction].
    repeat split.
    unfold sample_cameras in Hin. cbn [In] in Hin.
    repeat (destruct Hin as [<-|Hin]; [reflexivity|]). destruct Hin. }
  split; [exact Hcams|]. split; [exact Hlen|]. split; [reflexivity|].
  split; [exact Hall|]. split; [reflexivity|]. split; [reflexivity|].
  unfold get_all_cameras. rewrite find_all.
  - apply to_list_all. rewrite Hlen. apply Nat.leb_le. reflexivity.
  - intros cam Hin. rewrite Forall_forall in Hall.
    destruct (Hall cam Hin) as [-> _]. reflexivity.
Qed.

(** ** More on the proximity queries *)

Section SortStability.
Context {A : Type} (key : A -> Z).

Lemma insert_by_key_filter (k : Z) (x : A) (l : list A) :
  filter (fun y => key y =? k) (insert_by_key key x l)
  = filter (fun y => key y =? k) (x :: l).
Proof.
  induction l as [|y rest IH]; [reflexivity|].
  cbn [insert_by_key]. destruct (key x <=? key y) eqn:Hxy; [reflexivity|].
  apply Z.leb_gt in Hxy. cbn [filter] in *. rewrite IH.
  destruct (key x =? k) eqn:Hx; [|reflexivity].
  apply Z.eqb_eq in Hx.
  destruct (key y =? k) eqn:Hy; [|reflexivity].
  apply Z.eqb_eq in Hy. lia.
Qed.

(** The sort is stable: the elements with a given key keep their order. *)
Lemma sort_by_key_stable (k : Z) (l : list A) :
  filter (fun y => key y =? k) (sort_by_key key l)
  = filter (fun y => key y =? k) l.
Proof.
  induction l as [|x rest IH]; [reflexivity|].
  cbn [sort_by_key]. rewrite insert_by_key_filter. cbn [filter]. now rewrite IH.
Qed.

Lemma sort_by_key_length (l : list A) :
  List.length (sort_by_key key l) = List.length l.
Proof. apply Permutation_length, sort_by_key_perm. Qed.
End SortStability.

Lemma round_minutes_nearest (td : timedelta) :
  Z.abs (round_minutes td * 60000000 - td) <= 30000000
  /\ (0 <= td -> 0 <= round_minutes td).
Proof.
  unfold round_minutes, round_half_even_ratio, MICROS_PER_MINUTE.
  pose proof (Z.div_mod td 60000000 ltac:(lia)) as Hdm.
  pose proof (Z.mod_pos_bound td 60000000 ltac:(lia)) as Hr.
  assert (Hq : 0 <= td -> 0 <= td / 60000000) by (intros; apply Z.div_pos; lia).
  destruct (2 * (td mod 60000000) <? 60000000) eqn:H1.
  - apply Z.ltb_lt in H1. split; [lia | exact Hq].
  - apply Z.ltb_ge in H1.
    destruct (60000000 <? 2 * (td mod 60000000)) eqn:H2.
    + split; [lia | intros; specialize (Hq H); lia].
    + apply Z.ltb_ge in H2.
      destruct (Z.even (td / 60000000));
        (split; [lia | intros; specialize (Hq H); lia]).
Qed.

Section NearbyMore.
Variables (lat lon radius_km : R).

Lemma collect_cameras_length (cams : list SpeedCamera.t) :
  (List.length (collect_cameras lat lon radius_km cams) <= List.length cams)%nat.
Proof.
  induction cams as [|cam rest IH]; simpl; [lia|].
  destruct (Rleb _ _); simpl; lia.
Qed.

Lemma collect_reports_length (now : datetime) (rs : list CommunityReport.t) :
  (List.length (collect_reports lat lon radius_km now rs) <= List.length rs)%nat.
Proof.
  induction rs as [|r rest IH]; simpl; [lia|].
  destruct (Rleb _ _); simpl; lia.
Qed.

Lemma collect_cameras_in (cams : list SpeedCamera.t) (cam : SpeedCamera.t) :
  In cam cams ->
  (camera_distance lat lon cam <= radius_km * 1000)%R ->
  In (mkNearbyCamera cam (py_round (camera_distance lat lon cam)))
     (collect_cameras lat lon radius_km cams).
Proof.
  intros Hin Hd. apply Rleb_true in Hd.
  induction cams as [|c rest IH]; [destruct Hin|].
  cbn [collect_cameras]. cbv zeta. destruct Hin as [->|Hin].
  - rewrite Hd. now left.
  - destruct (Rleb (camera_distance lat lon c) (radius_km * 1000));
      [right|]; now apply IH.
Qed.

Lemma collect_reports_in (now : datetime) (rs : list CommunityReport.t)
    (r : CommunityReport.t) :
  In r rs ->
  (report_distance lat lon r <= radius_km * 1000)%R ->
  In (mkNearbyReport r (py_round (report_distance lat lon r))
        (round_minutes (CommunityReport.expires_at r - now)))
     (collect_reports lat lon radius_km now rs).
Proof.
  intros Hin Hd. apply Rleb_true in Hd.
  induction rs as [|c rest IH]; [destruct Hin|].
  cbn [collect_reports]. cbv zeta. destruct Hin as [->|Hin].
  - rewrite Hd. now left.
  - destruct (Rleb (report_distance lat lon c) (radius_km * 1000));
      [right|]; now apply IH.
Qed.

Lemma collect_reports_minutes (now : datetime) (rs : list CommunityReport.t) :
  Forall (fun x =>
            nr_expires_in_minutes x
            = round_minutes (CommunityReport.expires_at (nr_report x) - now))
         (collect_reports lat lon radius_km now rs).
Proof.
  induction rs as [|r rest IH]; simpl; [constructor|].
  destruct (Rleb _ _); [constructor; [reflexivity | exact IH] | exact IH].
Qed.

Lemma collect_cameras_filter (k : Z) (cams : list SpeedCamera.t) :
  map nc_camera
      (filter (fun x => nc_distance_meters x =? k)
              (collect_cameras lat lon radius_km cams))
  = filter (fun cam =>
              Rleb (camera_distance lat lon cam) (radius_km * 1000)
              && (py_round (camera_distance lat lon cam) =? k))
           cams.
Proof.
  induction cams as [|cam rest IH]; [reflexivity|].
  cbn [collect_cameras filter].
  destruct (Rleb (camera_distance lat lon cam) (radius_km * 1000)); cbn [andb].
  - cbn [filter nc_distance_meters].
    destruct (py_round (camera_distance lat lon cam) =? k); cbn [map nc_camera];
      now rewrite IH.
  - exact IH.
Qed.

(** X9.  The combined query never returns an inactive camera or report,
    never a camera or report outside the bounding box of the request, and
    never more than 1000 cameras or 500 reports. *)
Theorem get_all_nearby_active_and_capped (now : datetime) (db : DB) :
  let bbox := get_bounding_box lat lon radius_km in
  Forall (fun x =>
            SpeedCamera.is_active (nc_camera x) = true
            /\ in_box bbox (SpeedCamera.latitude (nc_camera x))
                 (SpeedCamera.longitude (nc_camera x)) = true)
         (fst (get_all_nearby lat lon radius_km now db))
  /\ (List.length (fst (get_all_nearby lat lon radius_km now db)) <= 1000)%nat
  /\ Forall (fun x =>
               CommunityReport.is_active (nr_report x) = true
               /\ in_box bbox (CommunityReport.latitude (nr_report x))
                    (CommunityReport.longitude (nr_report x)) = true)
            (snd (get_all_nearby lat lon radius_km now db))
  /\ (List.length (snd (get_all_nearby lat lon radius_km now db)) <= 500)%nat.
Proof.
  intros bbox. unfold get_all_nearby. cbn [fst snd].
  split; [|split; [|split]].
  - unfold get_nearby_cameras. apply sort_by_key_Forall.
    eapply Forall_impl; [|apply collect_cameras_Forall].
    intros x (Hin & _). apply to_list_in, find_in in Hin as [_ Hq].
    unfold camera_box_query in Hq. apply andb_prop in Hq as [Hbox Hact].
    split; [now apply Bool.eqb_prop in Hact | exact Hbox].
  - unfold get_nearby_cameras. rewrite sort_by_key_length.
    eapply Nat.le_trans; [apply collect_cameras_length | apply to_list_length].
  - unfold get_nearby_reports. apply sort_by_key_Forall.
    eapply Forall_impl; [|apply collect_reports_Forall].
    intros x (Hin & _). apply to_list_in, find_in in Hin as [_ Hq].
    unfold report_box_query in Hq. apply andb_prop in Hq as [Hq _].
    apply andb_prop in Hq as [Hbox Hact].
    split; [now apply Bool.eqb_prop in Hact | exact Hbox].
  - unfold get_nearby_reports. rewrite sort_by_key_length.
    eapply Nat.le_trans; [apply collect_reports_length | apply to_list_length].
Qed.

(** In the real-number reading, where no distance raises:
    an active camera that passes the bounding-box filter and lies
    within the radius is returned, with its rounded distance, as long as at
    most 1000 stored cameras pass the filter. *)
Theorem nearby_camera_is_found (db : DB) (cam : SpeedCamera.t) :
  let bbox := get_bounding_box lat lon radius_km in
  In cam (cameras db) ->
  SpeedCamera.is_active cam = true ->
  in_box bbox (SpeedCamera.latitude cam) (SpeedCamera.longitude cam) = true ->
  (camera_distance lat lon cam <= radius_km * 1000)%R ->
  (List.length (find (camera_box_query bbox) (cameras db)) <= 1000)%nat ->
  In (mkNearbyCamera cam (py_round (camera_distance lat lon cam)))
     (get_nearby_cameras lat lon radius_km db).
Proof.
  intros bbox Hin Hact Hbox Hd Hcap. unfold get_nearby_cameras. fold bbox.
  apply (Permutation_in _ (Permutation_sym (sort_by_key_perm _ _))).
  apply collect_cameras_in; [|exact Hd].
  rewrite to_list_all by exact Hcap.
  apply find_in. split; [exact Hin|].
  unfold camera_box_query. now rewrite Hbox, Hact.
Qed.

(** X11.  Cameras that come back with the same [distance_meters] keep the
    order in which the store enumerates them: the cameras returned with
    distance [k] are, in this order, the enumerated candidates within the
    radius whose rounded distance is [k]. *)
Theorem nearby_cameras_ties_keep_store_order (db : DB) (k : Z) :
  map nc_camera
      (filter (fun x => nc_distance_meters x =? k)
              (get_nearby_cameras lat lon radius_km db))
  = filter (fun cam =>
              Rleb (camera_distance lat lon cam) (radius_km * 1000)
              && (py_round (camera_distance lat lon cam) =? k))
           (to_list 1000
              (find (camera_box_query (get_bounding_box lat lon radius_km))
                    (cameras db))).
Proof.
  unfold get_nearby_cameras.
  rewrite (sort_by_key_stable nc_distance_meters k). apply collect_cameras_filter.
Qed.

(** X12.  For every report returned, [expires_in_minutes] is the remaining
    life in minutes rounded to the nearest integer: it is never negative
    and differs from the remaining time by at most thirty seconds. *)
Theorem expires_in_minutes_is_rounded_remaining (now : datetime) (db : DB) :
  Forall (fun x =>
            let remaining := CommunityReport.expires_at (nr_report x) - now in
            0 < remaining
            /\ 0 <= nr_expires_in_minutes x
            /\ Z.abs (nr_expires_in_minutes x * 60000000 - remaining) <= 30000000)
         (get_nearby_reports lat lon radius_km now db).
Proof.
  assert (Hmin : Forall (fun x =>
            nr_expires_in_minutes x
            = round_minutes (CommunityReport.expires_at (nr_report x) - now))
         (get_nearby_reports lat lon radius_km now db)).
  { unfold get_nearby_reports. apply sort_by_key_Forall, collect_reports_minutes. }
  pose proof (get_nearby_reports_source lat lon radius_km now db) as Hsrc.
  rewrite Forall_forall in *. intros x Hx. cbv zeta.
  destruct (Hsrc x Hx) as [_ Hq]. rewrite (Hmin x Hx).
  unfold report_box_query in Hq. apply andb_prop in Hq as [_ Hlt].
  apply Z.ltb_lt in Hlt.
  destruct (round_minutes_nearest (CommunityReport.expires_at (nr_report x) - now))
    as [Habs Hpos].
  split; [lia|]. split; [apply Hpos; lia | exact Habs].
Qed.
End NearbyMore.

Lemma nearby_camera_is_found_witness :
  In (mkNearbyCamera (Sample.camera_at_origin "cam-2") 0)
     (get_nearby_cameras 0 0 1 Sample.db_two_cameras).
Proof.
  assert (Hd : camera_distance 0 0 (Sample.camera_at_origin "cam-2") = 0%R)
    by apply haversine_distance_same.
  assert (Hfound :
    In (mkNearbyCamera (Sample.camera_at_origin "cam-2")
          (py_round (camera_distance 0 0 (Sample.camera_at_origin "cam-2"))))
       (get_nearby_cameras 0 0 1 Sample.db_two_cameras)).
  { apply (nearby_camera_is_found 0 0 1 Sample.db_two_cameras
             (Sample.camera_at_origin "cam-2")).
    - simpl. right. now left.
    - reflexivity.
    - change (in_box (get_bounding_box 0 0 1) 0 0 = true).
      apply in_box_center; lra.
    - rewrite Hd. lra.
    - eapply Nat.le_trans; [apply filter_length_le|].
      apply Nat.leb_le. reflexivity. }
  rewrite Hd, py_round_0 in Hfound. exact Hfound.
Defined.

(** ** More on report submission *)

Lemma create_report_preserves_unique_ids_witness :
  unique_ids
    (reports (fst (create_report Sample.env Sample.db_crowded
                     (Sample.submit_at_origin "police_check" "B")))).
Proof.
  apply create_report_preserves_unique_ids.
  - apply distinct_strings_NoDup. vm_compute. reflexivity.
  - intros Hin.
    assert (Hd : distinct_strings
                   (fresh_report_id Sample.env
                    :: map CommunityReport.id (reports Sample.db_crowded)) = true)
      by (vm_compute; reflexivity).
    apply distinct_strings_NoDup in Hd. inversion Hd as [|? ? Hnot _]. now apply Hnot.
Defined.

Section UpdateFacts.
Context {A : Type}.

Lemma update_one_Forall (P : A -> Prop) (q : A -> bool) (u : A -> A) (l : list A) :
  (forall d, P d -> P (u d)) -> Forall P l -> Forall P (update_one q u l).
Proof.
  intros Hu. induction 1 as [|d rest Hd Hrest IH]; simpl; [constructor|].
  destruct (q d); constructor; auto.
Qed.

Lemma update_one_in (q : A -> bool) (u : A -> A) (l : list A) (x : A) :
  In x (update_one q u l) -> In x l \/ exists d, In d l /\ x = u d.
Proof.
  induction l as [|d rest IH]; simpl; [tauto|].
  destruct (q d); simpl.
  - intros [<-|Hx]; [right; exists d; auto | left; now right].
  - intros [<-|Hx]; [left; now left|].
    destruct (IH Hx) as [H|(d' & H & ->)]; [left; now right|].
    right. exists d'. auto.
Qed.

Lemma find_one_ext (q1 q2 : A -> bool) (l : list A) :
  (forall d, q1 d = q2 d) -> find_one q1 l = find_one q2 l.
Proof.
  intros H. induction l as [|d rest IH]; simpl; [reflexivity|].
  now rewrite H, IH.
Qed.
End UpdateFacts.

Lemma get_settings_same_store (db db' : DB) (fresh_id : string) :
  settings db' = settings db -> get_settings db' fresh_id = get_settings db fresh_id.
Proof. intros H. unfold get_settings. now rewrite H. Qed.

Lemma get_settings_rate_limit (db : DB) (i j : string) :
  AppSettings.rate_limit_minutes (get_settings db i)
  = AppSettings.rate_limit_minutes (get_settings db j).
Proof. unfold get_settings. now destruct (find_one _ (settings db)). Qed.

Lemma create_report_settings (env : Env) (db : DB) (report : CommunityReportCreate.t) :
  settings (fst (create_report env db report)) = settings db
  /\ cameras (fst (create_report env db report)) = cameras db.
Proof.
  unfold create_report.
  destruct (find_one _ (reports db)); [split; reflexivity|].
  destruct (first_duplicate _ _ _); split; reflexivity.
Qed.

(** X13.  A submission never touches the cameras or the settings and never
    removes or reorders a stored report: the stored identifiers afterwards
    are the stored identifiers before, followed by at most the one fresh
    identifier. *)
Theorem create_report_never_removes
    (env : Env) (db : DB) (report : CommunityReportCreate.t) :
  let db' := fst (create_report env db report) in
  cameras db' = cameras db
  /\ settings db' = settings db
  /\ (map CommunityReport.id (reports db') = map CommunityReport.id (reports db)
      \/ map CommunityReport.id (reports db')
         = map CommunityReport.id (reports db) ++ [fresh_report_id env]).
Proof.
  intros db'. destruct (create_report_settings env db report) as [Hs Hc].
  split; [exact Hc|]. split; [exact Hs|].
  unfold db', create_report.
  destruct (find_one _ (reports db)); [now left|].
  destruct (first_duplicate _ _ _); cbn [fst set_reports reports].
  - left. apply update_one_ids.
  - right. unfold insert_one. now rewrite map_app.
Qed.

(** X14.  If every stored report has at least one confirmation, this is
    still so after a submission. *)
Theorem create_report_keeps_confirmations_positive
    (env : Env) (db : DB) (report : CommunityReportCreate.t) :
  Forall (fun d => 1 <= CommunityReport.confirmations d) (reports db) ->
  Forall (fun d => 1 <= CommunityReport.confirmations d)
         (reports (fst (create_report env db report))).
Proof.
  intros Hpos. unfold create_report.
  destruct (find_one _ (reports db)); [exact Hpos|].
  destruct (first_duplicate _ _ _); cbn [fst set_reports reports].
  - apply update_one_Forall; [|exact Hpos]. intros d Hd. simpl. lia.
  - unfold insert_one. apply Forall_app. split; [exact Hpos|].
    constructor; [simpl; lia | constructor].
Qed.

Lemma create_report_keeps_confirmations_positive_witness :
  Forall (fun d => 1 <= CommunityReport.confirmations d)
         (reports (fst (create_report Sample.env Sample.db_near_only
                          (Sample.submit_at_origin "police_check" "B")))).
Proof.
  apply create_report_keeps_confirmations_positive.
  constructor; [simpl; lia | constructor].
Defined.

(** X16.  The rate limit does not look at the place: when a submission is
    refused, a submission by the same submitter of the same type from any
    other coordinate gets the very same answer. *)
Theorem rate_limit_ignores_location
    (env : Env) (db : DB) (r1 r2 : CommunityReportCreate.t) :
  CommunityReportCreate.user_id r2 = CommunityReportCreate.user_id r1 ->
  CommunityReportCreate.report_type r2 = CommunityReportCreate.report_type r1 ->
  ReportResponse.success (snd (create_report env db r1)) = false ->
  create_report env db r2 = create_report env db r1.
Proof.
  intros Hu Ht Hrefused. unfold create_report in *.
  rewrite (find_one_ext
             (rate_limit_query r2 (now env) (get_settings db (fresh_settings_id env)))
             (rate_limit_query r1 (now env) (get_settings db (fresh_settings_id env)))).
  - destruct (find_one _ (reports db)) as [recent|].
    + now rewrite Ht.
    + destruct (first_duplicate r1 _ _); discriminate Hrefused.
  - intros d. unfold rate_limit_query. now rewrite Hu, Ht.
Qed.

Lemma rate_limit_ignores_location_witness :
  create_report Sample.env Sample.db_recent_A
    (Scenario.submit_in_london "mobile_camera" "A")
  = (Sample.db_recent_A,
     ReportResponse.mk false
       "Please wait 5 more minutes before reporting another mobile camera" None).
Proof.
  rewrite (rate_limit_ignores_location Sample.env Sample.db_recent_A
             (Sample.submit_at_origin "mobile_camera" "A")
             (Scenario.submit_in_london "mobile_camera" "A")).
  - reflexivity.
  - reflexivity.
  - reflexivity.
  - reflexivity.
Defined.

(** ** Sequences of submissions *)

Section AfterCreation.
Variables (env1 env2 : Env) (db : DB) (report : CommunityReportCreate.t).

Let st1 := get_settings db (fresh_settings_id env1).
Let st2 := get_settings db (fresh_settings_id env2).
Let fresh := new_report env1 report st1.

Hypothesis Hnot_limited :
  find_one (rate_limit_query report (now env1) st1) (reports db) = None.
Hypothesis Hnot_merged :
  first_duplicate report st1
    (to_list 100 (find (duplicate_query report (now env1) st1) (reports db)))
  = None.

Lemma db_after_creation :
  fst (create_report env1 db report)
  = mkDB (cameras db) (reports db ++ [fresh]) (settings db).
Proof.
  now rewrite (create_report_insert_eq env1 db report Hnot_limited Hnot_merged).
Qed.

Lemma settings_after_creation :
  get_settings (fst (create_report env1 db report)) (fresh_settings_id env2) = st2.
Proof. rewrite db_after_creation. reflexivity. Qed.
End AfterCreation.

(** X17.  After a submission that created a record, a further submission
    by the same submitter of the same type, from any place, is refused as
    long as the creation time of that record is inside the rate-limit
    window: the answer has [success = false] and the store is unchanged. *)
Theorem resubmission_is_rate_limited
    (env1 env2 : Env) (db : DB) (report report2 : CommunityReportCreate.t) :
  let st1 := get_settings db (fresh_settings_id env1) in
  let st2 := get_settings db (fresh_settings_id env2) in
  let db1 := fst (create_report env1 db report) in
  find_one (rate_limit_query report (now env1) st1) (reports db) = None ->
  first_duplicate report st1
    (to_list 100 (find (duplicate_query report (now env1) st1) (reports db)))
  = None ->
  CommunityReportCreate.user_id report2 = CommunityReportCreate.user_id report ->
  CommunityReportCreate.report_type report2
  = CommunityReportCreate.report_type report ->
  now env2 - AppSettings.rate_limit_minutes st2 * 60000000 <= fresh_created_at env1 ->
  fst (create_report env2 db1 report2) = db1
  /\ ReportResponse.success (snd (create_report env2 db1 report2)) = false
  /\ ReportResponse.report_id (snd (create_report env2 db1 report2)) = None.
Proof.
  intros st1 st2 db1 Hrl Hdup Hu Ht Hwin.
  pose proof (db_after_creation env1 db report Hrl Hdup) as Hdb1.
  pose proof (settings_after_creation env1 env2 db report Hrl Hdup) as Hst.
  fold db1 in Hdb1, Hst.
  destruct (find_one_exists
              (rate_limit_query report2 (now env2)
                 (get_settings db1 (fresh_settings_id env2)))
              (reports db1)) as [recent Hfind].
  { exists (new_report env1 report st1). split.
    - rewrite Hdb1. cbn [reports]. apply in_or_app. right. now left.
    - rewrite Hst. unfold rate_limit_query, new_report.
      cbn [CommunityReport.user_id CommunityReport.report_type
           CommunityReport.created_at].
      rewrite Hu, Ht, !String.eqb_refl. cbn [andb]. apply Z.leb_le.
      unfold timedelta_minutes, MICROS_PER_MINUTE. exact Hwin. }
  rewrite (create_report_rate_limited_eq env2 db1 report2 recent Hfind).
  repeat split.
Qed.

Lemma resubmission_is_rate_limited_witness :
  ReportResponse.success
    (snd (create_report Scenario.env_later
            (fst (create_report Sample.env Sample.empty_db
                    (Sample.submit_at_origin "mobile_camera" "A")))
            (Scenario.submit_in_london "mobile_camera" "A")))
  = false.
Proof.
  apply (resubmission_is_rate_limited Sample.env Scenario.env_later Sample.empty_db
           (Sample.submit_at_origin "mobile_camera" "A")
           (Scenario.submit_in_london "mobile_camera" "A")).
  - reflexivity.
  - reflexivity.
  - reflexivity.
  - reflexivity.
  - simpl. lia.
Defined.

(** In the real-number reading, where no distance raises:
    after a submission that created a record, a submission of the
    same type at the same coordinate that is not rate-limited confirms that
    record, provided the record is still live and inside the duplicate
    window, the radius is not negative, its identifier was not stored
    before, and the older candidates are fewer than 100 and all outside the
    radius: the answer is "Confirmed! 2 users have reported this." with the
    identifier of the record, whose confirmations become 2, and nothing is
    inserted. *)
Theorem second_submitter_confirms
    (env1 env2 : Env) (db : DB) (report report2 : CommunityReportCreate.t) :
  let st1 := get_settings db (fresh_settings_id env1) in
  let st2 := get_settings db (fresh_settings_id env2) in
  let db1 := fst (create_report env1 db report) in
  let older := find (duplicate_query report2 (now env2) st2) (reports db) in
  find_one (rate_limit_query report (now env1) st1) (reports db) = None ->
  first_duplicate report st1
    (to_list 100 (find (duplicate_query report (now env1) st1) (reports db)))
  = None ->
  CommunityReportCreate.report_type report2
  = CommunityReportCreate.report_type report ->
  CommunityReportCreate.latitude report2 = CommunityReportCreate.latitude report ->
  CommunityReportCreate.longitude report2 = CommunityReportCreate.longitude report ->
  (forall d, In d (reports db1) -> rate_limit_query report2 (now env2) st2 d = false) ->
  now env2 < now env1 + ttl_minutes report st1 * 60000000 ->
  now env2 - AppSettings.duplicate_time_window_minutes st2 * 60000000
    <= fresh_created_at env1 ->
  0 <= AppSettings.duplicate_radius_meters st2 ->
  (forall d, In d older -> within_duplicate_radius report2 st2 d = false) ->
  (List.length older < 100)%nat ->
  ~ In (fresh_report_id env1) (map CommunityReport.id (reports db)) ->
  create_report env2 db1 report2
  = (mkDB (cameras db)
       (reports db ++ [CommunityReport.inc_confirmations (new_report env1 report st1)])
       (settings db),
     ReportResponse.mk true "Confirmed! 2 users have reported this."
       (Some (fresh_report_id env1)))
  /\ CommunityReport.confirmations
       (CommunityReport.inc_confirmations (new_report env1 report st1)) = 2.
Proof.
  intros st1 st2 db1 older Hrl Hdup Ht Hlat Hlon Hrl2 Hlive Hwin Hrad Hold Hcap Hfresh.
  pose proof (db_after_creation env1 db report Hrl Hdup) as Hdb1.
  pose proof (settings_after_creation env1 env2 db report Hrl Hdup) as Hst.
  fold db1 in Hdb1, Hst. split; [|reflexivity].
  set (fresh := new_report env1 report st1) in *.
  assert (Hq : duplicate_query report2 (now env2) st2 fresh = true).
  { apply duplicate_query_spec. repeat split.
    - now rewrite Ht.
    - unfold fresh, new_report, timedelta_minutes, MICROS_PER_MINUTE.
      cbn [CommunityReport.expires_at]. exact Hlive.
    - exact Hwin. }
  assert (Hw : within_duplicate_radius report2 st2 fresh = true).
  { apply within_duplicate_radius_same_place; [| |exact Hrad].
    - now rewrite Hlat.
    - now rewrite Hlon. }
  assert (Hcand : to_list 100
                    (find (duplicate_query report2 (now env2) st2) (reports db1))
                  = older ++ [fresh]).
  { rewrite Hdb1. cbn [reports]. rewrite find_app. fold older st1. fold fresh.
    change (find (duplicate_query report2 (now env2) st2) [fresh])
      with (if duplicate_query report2 (now env2) st2 fresh then [fresh] else []).
    rewrite Hq.
    apply to_list_all. rewrite length_app. simpl. lia. }
  assert (Hfirst : first_duplicate report2 st2 (older ++ [fresh]) = Some fresh).
  { clear Hcand Hcap. induction older as [|d rest IH]; cbn [first_duplicate app].
    - now rewrite Hw.
    - rewrite (Hold d (or_introl eq_refl)). apply IH.
      intros x Hx. apply Hold. now right. }
  rewrite (create_report_merge_eq env2 db1 report2 fresh).
  - rewrite Hdb1. cbn [reports set_reports cameras settings]. fold st1. fold fresh.
    rewrite update_one_split.
    + reflexivity.
    + apply String.eqb_refl.
    + intros x Hx. apply String.eqb_neq. intros Heq. apply Hfresh.
      change (fresh_report_id env1) with (CommunityReport.id fresh).
      rewrite <- Heq. now apply in_map.
  - apply find_one_none. rewrite Hst. exact Hrl2.
  - rewrite Hst. fold st2. rewrite Hcand. exact Hfirst.
Qed.

Lemma second_submitter_confirms_witness :
  create_report Scenario.env_later
    (fst (create_report Sample.env Sample.empty_db
            (Scenario.submit_in_london "mobile_camera" "A")))
    (Scenario.submit_in_london "mobile_camera" "B")
  = (mkDB []
       [CommunityReport.mk "new-1" 51.5%R (-0.12)%R "mobile_camera" "A" 2
          600000001 5100000000 true] [],
     ReportResponse.mk true "Confirmed! 2 users have reported this." (Some "new-1")).
Proof.
  destruct (second_submitter_confirms Sample.env Scenario.env_later Sample.empty_db
              (Scenario.submit_in_london "mobile_camera" "A")
              (Scenario.submit_in_london "mobile_camera" "B")) as [Heq _].
  - reflexivity.
  - reflexivity.
  - reflexivity.
  - reflexivity.
  - reflexivity.
  - intros d [<-|[]]. reflexivity.
  - simpl. lia.
  - simpl. lia.
  - simpl. lia.
  - intros d [].
  - simpl. lia.
  - intros [].
  - rewrite Heq. reflexivity.
Defined.

Lemma rate_limit_query_inc report now st d :
  rate_limit_query report now st (CommunityReport.inc_confirmations d)
  = rate_limit_query report now st d.
Proof. reflexivity. Qed.

Lemma rate_limit_query_later report now now' st st' d :
  AppSettings.rate_limit_minutes st' = AppSettings.rate_limit_minutes st ->
  now <= now' ->
  rate_limit_query report now st d = false ->
  rate_limit_query report now' st' d = false.
Proof.
  unfold rate_limit_query, timedelta_minutes. intros -> Hle H.
  apply andb_false_iff in H as [H|H]; [now rewrite H|].
  apply andb_false_iff. right. apply Z.leb_gt in H. apply Z.leb_gt.
  unfold MICROS_PER_MINUTE in *. lia.
Qed.

(** In the real-number reading, where no distance raises:
    a merge leaves no trace of the submitter: after a submission
    that was merged into a stored report, the same submitter is still not
    rate-limited, at that moment or later, and the same submission sent
    again is accepted again. *)
Theorem merged_submitter_is_not_rate_limited
    (env env2 : Env) (db : DB) (report : CommunityReportCreate.t)
    (existing : CommunityReport.t) :
  let st := get_settings db (fresh_settings_id env) in
  let db1 := fst (create_report env db report) in
  find_one (rate_limit_query report (now env) st) (reports db) = None ->
  first_duplicate report st
    (to_list 100 (find (duplicate_query report (now env) st) (reports db)))
  = Some existing ->
  now env <= now env2 ->
  find_one (rate_limit_query report (now env2)
              (get_settings db1 (fresh_settings_id env2)))
    (reports db1) = None
  /\ ReportResponse.success (snd (create_report env2 db1 report)) = true.
Proof.
  intros st db1 Hrl Hdup Hle.
  assert (Hdb1 : db1 = set_reports db
            (update_one
               (fun d => String.eqb (CommunityReport.id d) (CommunityReport.id existing))
               CommunityReport.inc_confirmations (reports db))).
  { unfold db1. now rewrite (create_report_merge_eq env db report existing Hrl Hdup). }
  assert (Hnone : find_one (rate_limit_query report (now env2)
              (get_settings db1 (fresh_settings_id env2)))
    (reports db1) = None).
  { apply find_one_none. intros d Hd.
    rewrite (get_settings_same_store db db1) by (rewrite Hdb1; reflexivity).
    rewrite Hdb1 in Hd. cbn [reports set_reports] in Hd.
    rewrite find_one_none in Hrl.
    assert (Hold : forall x, In x (reports db) ->
              rate_limit_query report (now env2)
                (get_settings db (fresh_settings_id env2)) x = false).
    { intros x Hx. apply (rate_limit_query_later report (now env) (now env2) st).
      - apply get_settings_rate_limit.
      - exact Hle.
      - now apply Hrl. }
    apply update_one_in in Hd as [Hd|(d0 & Hd0 & ->)].
    - now apply Hold.
    - rewrite rate_limit_query_inc. now apply Hold. }
  split; [exact Hnone|].
  unfold create_report. rewrite Hnone.
  destruct (first_duplicate report (get_settings db1 (fresh_settings_id env2)) _);
    reflexivity.
Qed.

Lemma merged_submitter_is_not_rate_limited_witness :
  ReportResponse.success
    (snd (create_report Scenario.env_later
            (fst (create_report Sample.env Sample.db_near_only
                    (Sample.submit_at_origin "police_check" "B")))
            (Sample.submit_at_origin "police_check" "B")))
  = true.
Proof.
  assert (Hw : within_duplicate_radius (Sample.submit_at_origin "police_check" "B")
                 (get_settings Sample.db_near_only (fresh_settings_id Sample.env))
                 Sample.near_report = true).
  { apply within_duplicate_radius_same_place; try reflexivity. simpl. lia. }
  apply (merged_submitter_is_not_rate_limited Sample.env Scenario.env_later
           Sample.db_near_only (Sample.submit_at_origin "police_check" "B")
           Sample.near_report).
  - reflexivity.
  - change (first_duplicate (Sample.submit_at_origin "police_check" "B")
              (get_settings Sample.db_near_only (fresh_settings_id Sample.env))
              [Sample.near_report] = Some Sample.near_report).
    cbn [first_duplicate]. now rewrite Hw.
  - simpl. lia.
Defined.

(** In the real-number reading, where no distance raises:
    a record created by a submission whose latitude is in [-90, 90]
    is returned by a report query centred at the submitted coordinate, with
    distance 0 and its rounded remaining minutes, for every radius that is
    not negative and every time before its expiry, as long as fewer than 500
    reports were stored before. *)
Theorem created_report_is_visible
    (env : Env) (db : DB) (report : CommunityReportCreate.t)
    (radius_km : R) (now2 : datetime) :
  let st := get_settings db (fresh_settings_id env) in
  let expiry := now env + ttl_minutes report st * 60000000 in
  find_one (rate_limit_query report (now env) st) (reports db) = None ->
  first_duplicate report st
    (to_list 100 (find (duplicate_query report (now env) st) (reports db)))
  = None ->
  (-90 <= CommunityReportCreate.latitude report <= 90)%R ->
  (0 <= radius_km)%R ->
  now2 < expiry ->
  (List.length (reports db) < 500)%nat ->
  In (mkNearbyReport (new_report env report st) 0 (round_minutes (expiry - now2)))
     (get_nearby_reports
        (CommunityReportCreate.latitude report)
        (CommunityReportCreate.longitude report)
        radius_km now2 (fst (create_report env db report))).
Proof.
  intros st expiry Hrl Hdup Hlat Hr Hlive Hcap.
  rewrite (db_after_creation env db report Hrl Hdup). fold st.
  set (fresh := new_report env report st).
  set (lat := CommunityReportCreate.latitude report).
  set (lon := CommunityReportCreate.longitude report).
  assert (Hd : report_distance lat lon fresh = 0%R)
    by apply haversine_distance_same.
  assert (Hfound :
    In (mkNearbyReport fresh (py_round (report_distance lat lon fresh))
          (round_minutes (CommunityReport.expires_at fresh - now2)))
       (get_nearby_reports lat lon radius_km now2
          (mkDB (cameras db) (reports db ++ [fresh]) (settings db)))).
  { unfold get_nearby_reports.
    apply (Permutation_in _ (Permutation_sym (sort_by_key_perm _ _))).
    apply collect_reports_in; [|rewrite Hd; lra].
    rewrite to_list_all.
    - apply find_in. cbn [reports]. split; [apply in_or_app; right; now left|].
      unfold report_box_query.
      change (CommunityReport.latitude fresh) with lat.
      change (CommunityReport.longitude fresh) with lon.
      rewrite in_box_center by assumption.
      cbn [andb]. apply Z.ltb_lt. exact Hlive.
    - eapply Nat.le_trans; [apply filter_length_le|].
      cbn [reports]. rewrite length_app. simpl. lia. }
  rewrite Hd, py_round_0 in Hfound. exact Hfound.
Qed.

Lemma created_report_is_visible_witness :
  In (mkNearbyReport
        (CommunityReport.mk "new-1" 51.5%R (-0.12)%R "mobile_camera" "A" 1
           600000001 5100000000 true)
        0 74)
     (get_nearby_reports 51.5 (-0.12) 5 660000000
        (fst (create_report Sample.env Sample.empty_db
                (Scenario.submit_in_london "mobile_camera" "A")))).
Proof.
  apply (created_report_is_visible Sample.env Sample.empty_db
           (Scenario.submit_in_london "mobile_camera" "A") 5 660000000).
  - reflexivity.
  - reflexivity.
  - simpl. lra.
  - lra.
  - simpl. lia.
  - simpl. lia.
Defined.

(** ** Requests with a latitude out of range *)

Section OutOfRange.
Local Open Scope R_scope.

Lemma cos_radians_negative (lat : R) :
  90 < Rabs lat < 270 -> cos (radians lat) < 0.
Proof.
  intros [Hlo Hhi]. pose proof PI_RGT_0 as Hpi. unfold radians.
  unfold Rabs in Hlo, Hhi. destruct (Rcase_abs lat) as [Hneg|Hpos].
  - rewrite <- cos_neg. apply cos_lt_0; nra.
  - apply cos_lt_0; nra.
Qed.

Lemma in_box_empty (lat lon radius_km x y : R) :
  90 < Rabs lat < 270 -> 0 < radius_km ->
  in_box (get_bounding_box lat lon radius_km) x y = false.
Proof.
  intros Hlat Hr. pose proof (cos_radians_negative lat Hlat) as Hc.
  assert (Hd : radius_km / (111 * cos (radians lat)) < 0).
  { unfold Rdiv. apply Rmult_pos_neg; [exact Hr|].
    apply Rinv_lt_0_compat. lra. }
  destruct (in_box (get_bounding_box lat lon radius_km) x y) eqn:E; [|reflexivity].
  unfold in_box, get_bounding_box in E. cbn [min_lat max_lat min_lon max_lon] in E.
  rewrite !andb_true_iff, !Rleb_true in E. lra.
Qed.

(** X21.  A proximity query whose latitude is out of range, between 90 and
    270 degrees in absolute value, with a positive radius returns no camera
    and no report, whatever is stored: the longitude interval of its
    bounding box is empty. *)
Theorem out_of_range_latitude_finds_nothing
    (lat lon radius_km : R) (now : datetime) (db : DB) :
  90 < Rabs lat < 270 -> 0 < radius_km ->
  get_nearby_cameras lat lon radius_km db = []
  /\ get_nearby_reports lat lon radius_km now db = []
  /\ max_lon (get_bounding_box lat lon radius_km)
     < min_lon (get_bounding_box lat lon radius_km).
Proof.
  intros Hlat Hr.
  assert (Hcam : find (camera_box_query (get_bounding_box lat lon radius_km))
                   (cameras db) = []).
  { unfold find. induction (cameras db) as [|c rest IH]; [reflexivity|].
    cbn [filter]. unfold camera_box_query at 1.
    now rewrite (in_box_empty lat lon radius_km _ _ Hlat Hr). }
  assert (Hrep : find (report_box_query (get_bounding_box lat lon radius_km) now)
                   (reports db) = []).
  { unfold find. induction (reports db) as [|c rest IH]; [reflexivity|].
    cbn [filter]. unfold report_box_query at 1.
    now rewrite (in_box_empty lat lon radius_km _ _ Hlat Hr). }
  unfold get_nearby_cameras, get_nearby_reports. rewrite Hcam, Hrep.
  split; [reflexivity|]. split; [reflexivity|].
  pose proof (cos_radians_negative lat Hlat) as Hc.
  assert (Hd : radius_km / (111 * cos (radians lat)) < 0).
  { unfold Rdiv. apply Rmult_pos_neg; [exact Hr|]. apply Rinv_lt_0_compat. lra. }
  unfold get_bounding_box. cbn [min_lon max_lon]. lra.
Qed.

Lemma out_of_range_latitude_finds_nothing_witness :
  get_nearby_cameras 95 0 5 Sample.db_two_cameras = [].
Proof.
  apply (out_of_range_latitude_finds_nothing 95 0 5 0%Z Sample.db_two_cameras).
  - rewrite Rabs_right by lra. lra.
  - lra.
Defined.
End OutOfRange.

(** * The handlers with the exception of [math.sqrt] *)

Section PartialFacts.
Variable domain_error : R -> R -> R -> R -> bool.

Lemma partial_haversine_returned lat1 lon1 lat2 lon2 d :
  Partial.haversine_distance domain_error lat1 lon1 lat2 lon2 = Returned d ->
  domain_error lat1 lon1 lat2 lon2 = false
  /\ d = haversine_distance lat1 lon1 lat2 lon2.
Proof.
  unfold Partial.haversine_distance.
  destruct (domain_error lat1 lon1 lat2 lon2); [discriminate|].
  intros [= <-]. split; reflexivity.
Qed.

Lemma partial_haversine_ok lat1 lon1 lat2 lon2 :
  domain_error lat1 lon1 lat2 lon2 = false ->
  Partial.haversine_distance domain_error lat1 lon1 lat2 lon2
  = Returned (haversine_distance lat1 lon1 lat2 lon2).
Proof. unfold Partial.haversine_distance. now intros ->. Qed.

Lemma partial_haversine_raises lat1 lon1 lat2 lon2 :
  domain_error lat1 lon1 lat2 lon2 = true ->
  Partial.haversine_distance domain_error lat1 lon1 lat2 lon2 = ValueError.
Proof. unfold Partial.haversine_distance. now intros ->. Qed.

(** *** The merge loop *)

Lemma partial_first_duplicate_step report st existing rest :
  merge_distance_raises domain_error report existing = false ->
  Partial.first_duplicate domain_error report st (existing :: rest)
  = if within_duplicate_radius report st existing then Returned (Some existing)
    else Partial.first_duplicate domain_error report st rest.
Proof.
  intros H. cbn [Partial.first_duplicate].
  rewrite (partial_haversine_ok _ _ _ _ H). reflexivity.
Qed.

Lemma partial_first_duplicate_found report st earlier existing later :
  (forall x, In x earlier ->
     merge_distance_raises domain_error report x = false
     /\ within_duplicate_radius report st x = false) ->
  merge_distance_raises domain_error report existing = false ->
  within_duplicate_radius report st existing = true ->
  Partial.first_duplicate domain_error report st (earlier ++ existing :: later)
  = Returned (Some existing).
Proof.
  intros Hpre Hok Hw. induction earlier as [|x rest IH]; cbn [app].
  - rewrite partial_first_duplicate_step by exact Hok. now rewrite Hw.
  - destruct (Hpre x (or_introl eq_refl)) as [Hx1 Hx2].
    rewrite partial_first_duplicate_step by exact Hx1. rewrite Hx2.
    apply IH. intros y Hy. apply Hpre. now right.
Qed.

Lemma partial_first_duplicate_aborts report st earlier bad later :
  (forall x, In x earlier ->
     merge_distance_raises domain_error report x = false
     /\ within_duplicate_radius report st x = false) ->
  merge_distance_raises domain_error report bad = true ->
  Partial.first_duplicate domain_error report st (earlier ++ bad :: later)
  = ValueError.
Proof.
  intros Hpre Hbad. induction earlier as [|x rest IH]; cbn [app].
  - cbn [Partial.first_duplicate].
    now rewrite (partial_haversine_raises _ _ _ _ Hbad).
  - destruct (Hpre x (or_introl eq_refl)) as [Hx1 Hx2].
    rewrite partial_first_duplicate_step by exact Hx1. rewrite Hx2.
    apply IH. intros y Hy. apply Hpre. now right.
Qed.

Lemma partial_first_duplicate_ok report st l :
  (forall x, In x l -> merge_distance_raises domain_error report x = false) ->
  Partial.first_duplicate domain_error report st l
  = Returned (first_duplicate report st l).
Proof.
  induction l as [|x rest IH]; intros Hok; [reflexivity|].
  rewrite partial_first_duplicate_step by (apply Hok; now left).
  cbn [first_duplicate]. destruct (within_duplicate_radius report st x); [reflexivity|].
  apply IH. intros y Hy. apply Hok. now right.
Qed.

Lemma partial_first_duplicate_returned report st l o :
  Partial.first_duplicate domain_error report st l = Returned o ->
  o = first_duplicate report st l.
Proof.
  induction l as [|x rest IH]; cbn [Partial.first_duplicate first_duplicate].
  - now intros [= <-].
  - unfold Partial.haversine_distance, within_duplicate_radius.
    destruct (domain_error _ _ _ _); [discriminate|].
    destruct (Rleb _ _); [now intros [= <-] | exact IH].
Qed.

(** *** [create_report] *)

Lemma partial_create_report_of_scan env db report o :
  let st := get_settings db (fresh_settings_id env) in
  Partial.first_duplicate domain_error report st
    (to_list 100 (find (duplicate_query report (now env) st) (reports db)))
  = Returned o ->
  Partial.create_report domain_error env db report
  = Returned (create_report env db report).
Proof.
  intros st Hscan. unfold Partial.create_report, create_report. fold st.
  destruct (find_one _ (reports db)); [reflexivity|].
  rewrite Hscan, <- (partial_first_duplicate_returned _ _ _ _ Hscan).
  now destruct o.
Qed.

(** When no distance computed for a candidate raises, the handler returns
    what the real-number reading says. *)
Lemma partial_create_report_ok env db report :
  let st := get_settings db (fresh_settings_id env) in
  (forall x,
     In x (to_list 100 (find (duplicate_query report (now env) st) (reports db))) ->
     merge_distance_raises domain_error report x = false) ->
  Partial.create_report domain_error env db report
  = Returned (create_report env db report).
Proof.
  intros st Hok.
  apply (partial_create_report_of_scan env db report
           (first_duplicate report st
              (to_list 100 (find (duplicate_query report (now env) st) (reports db))))).
  now apply partial_first_duplicate_ok.
Qed.

(** Whenever the handler returns, it returns what the real-number reading
    says. *)
Lemma partial_create_report_returned env db report r :
  Partial.create_report domain_error env db report = Returned r ->
  r = create_report env db report.
Proof.
  unfold Partial.create_report, create_report.
  destruct (find_one _ (reports db)); [now intros [= <-]|].
  destruct (Partial.first_duplicate _ _ _ _) as [o|] eqn:Hscan; [|discriminate].
  rewrite <- (partial_first_duplicate_returned _ _ _ _ Hscan).
  destruct o; now intros [= <-].
Qed.

Lemma partial_create_report_aborts env db report :
  let st := get_settings db (fresh_settings_id env) in
  find_one (rate_limit_query report (now env) st) (reports db) = None ->
  Partial.first_duplicate domain_error report st
    (to_list 100 (find (duplicate_query report (now env) st) (reports db)))
  = ValueError ->
  Partial.create_report domain_error env db report = ValueError.
Proof.
  intros st Hrl Hscan. unfold Partial.create_report. fold st.
  now rewrite Hrl, Hscan.
Qed.

(** *** The proximity queries *)

Lemma partial_collect_cameras_ok lat lon radius_km cams :
  (forall cam, In cam cams -> camera_distance_raises domain_error lat lon cam = false) ->
  Partial.collect_cameras domain_error lat lon radius_km cams
  = Returned (collect_cameras lat lon radius_km cams).
Proof.
  induction cams as [|cam rest IH]; intros Hok; [reflexivity|].
  cbn [Partial.collect_cameras collect_cameras].
  rewrite (partial_haversine_ok _ _ _ _ (Hok cam (or_introl eq_refl))).
  rewrite IH by (intros c Hc; apply Hok; now right).
  unfold camera_distance. now destruct (Rleb _ _).
Qed.

Lemma partial_collect_reports_ok lat lon radius_km now rs :
  (forall r, In r rs -> report_distance_raises domain_error lat lon r = false) ->
  Partial.collect_reports domain_error lat lon radius_km now rs
  = Returned (collect_reports lat lon radius_km now rs).
Proof.
  induction rs as [|r rest IH]; intros Hok; [reflexivity|].
  cbn [Partial.collect_reports collect_reports].
  rewrite (partial_haversine_ok _ _ _ _ (Hok r (or_introl eq_refl))).
  rewrite IH by (intros c Hc; apply Hok; now right).
  unfold report_distance. now destruct (Rleb _ _).
Qed.

Lemma partial_get_nearby_cameras_ok lat lon radius_km db :
  (forall cam,
     In cam (to_list 1000
               (find (camera_box_query (get_bounding_box lat lon radius_km))
                     (cameras db))) ->
     camera_distance_raises domain_error lat lon cam = false) ->
  Partial.get_nearby_cameras domain_error lat lon radius_km db
  = Returned (get_nearby_cameras lat lon radius_km db).
Proof.
  intros Hok. unfold Partial.get_nearby_cameras, get_nearby_cameras.
  now rewrite partial_collect_cameras_ok.
Qed.

Lemma partial_get_nearby_reports_ok lat lon radius_km now db :
  (forall r,
     In r (to_list 500
             (find (report_box_query (get_bounding_box lat lon radius_km) now)
                   (reports db))) ->
     report_distance_raises domain_error lat lon r = false) ->
  Partial.get_nearby_reports domain_error lat lon radius_km now db
  = Returned (get_nearby_reports lat lon radius_km now db).
Proof.
  intros Hok. unfold Partial.get_nearby_reports, get_nearby_reports.
  now rewrite partial_collect_reports_ok.
Qed.
End PartialFacts.

(** ** Facts about the polar scenario *)

Section PolarFacts.
Local Open Scope R_scope.

Lemma Reqb_refl (x : R) : Scenario.Reqb x x = true.
Proof. unfold Scenario.Reqb. now destruct (Req_dec_T x x). Qed.

Lemma Reqb_neq (x y : R) : x <> y -> Scenario.Reqb x y = false.
Proof. unfold Scenario.Reqb. now destruct (Req_dec_T x y). Qed.

Lemma antipodal_domain_error_at_antipode :
  Scenario.antipodal_domain_error 87.5 180 (-87.5) 0 = true.
Proof.
  unfold Scenario.antipodal_domain_error.
  rewrite !Reqb_refl. apply orb_true_r.
Qed.

Lemma antipodal_domain_error_elsewhere (lat1 lon1 lat2 lon2 : R) :
  lat1 <> -87.5 -> lat1 <> 87.5 ->
  Scenario.antipodal_domain_error lat1 lon1 lat2 lon2 = false.
Proof.
  intros H1 H2. unfold Scenario.antipodal_domain_error.
  now rewrite (Reqb_neq lat1 (-87.5) H1), (Reqb_neq lat1 87.5 H2).
Qed.

Lemma antipodal_domain_error_same_place (lat lon : R) :
  Scenario.antipodal_domain_error lat lon lat lon = false.
Proof.
  unfold Scenario.antipodal_domain_error.
  destruct (Req_dec_T lat 87.5) as [E|Hn].
  - assert (Hm : lat <> -87.5) by lra. rewrite (Reqb_neq lat (-87.5) Hm).
    cbn [andb orb]. now rewrite !andb_false_r.
  - rewrite (Reqb_neq lat 87.5 Hn). cbn [andb orb].
    now rewrite !andb_false_r.
Qed.
End PolarFacts.

Lemma polar_candidate_raises (rid uid : string) :
  merge_distance_raises Scenario.antipodal_domain_error
    (Scenario.submit_at_antipode uid) (Scenario.polar_report rid) = true.
Proof. apply antipodal_domain_error_at_antipode. Qed.

Lemma origin_candidate_returns (de_report : CommunityReportCreate.t)
    (existing : CommunityReport.t) :
  CommunityReportCreate.latitude de_report = 0%R ->
  merge_distance_raises Scenario.antipodal_domain_error de_report existing = false.
Proof.
  intros H. unfold merge_distance_raises. rewrite H.
  apply antipodal_domain_error_elsewhere; lra.
Qed.

Section PolarCrowdedFacts.
Let report := Scenario.submit_at_antipode "B".
Let st := get_settings Scenario.db_polar_crowded (fresh_settings_id Sample.env).
Let matching :=
  find (duplicate_query report (now Sample.env) st) (reports Scenario.db_polar_crowded).

Lemma polar_reports_length : List.length Scenario.polar_reports = 100%nat.
Proof. unfold Scenario.polar_reports. now rewrite length_map, length_seq. Qed.

Lemma polar_crowded_not_rate_limited :
  forall d, In d (reports Scenario.db_polar_crowded) ->
    rate_limit_query report (now Sample.env) st d = false.
Proof.
  intros d Hd.
  change (In d (Scenario.polar_reports ++ [Scenario.antipode_report])) in Hd.
  apply in_app_or in Hd as [Hd|[<-|[]]].
  - unfold Scenario.polar_reports in Hd. apply in_map_iff in Hd as (i & <- & _).
    reflexivity.
  - reflexivity.
Qed.

Lemma polar_crowded_matching :
  matching = Scenario.polar_reports ++ [Scenario.antipode_report].
Proof.
  unfold matching. apply find_all. intros d Hd.
  change (In d (Scenario.polar_reports ++ [Scenario.antipode_report])) in Hd.
  apply in_app_or in Hd as [Hd|[<-|[]]].
  - unfold Scenario.polar_reports in Hd. apply in_map_iff in Hd as (i & <- & _).
    reflexivity.
  - reflexivity.
Qed.

Lemma polar_crowded_first_100 :
  to_list 100 matching
  = [] ++ Scenario.polar_report ("polar-" ++ str_of_int (Z.of_nat 0))%string
       :: map (fun i => Scenario.polar_report
                          ("polar-" ++ str_of_int (Z.of_nat i))%string)
              (seq 1 99).
Proof.
  rewrite polar_crowded_matching, (to_list_prefix 100) by apply polar_reports_length.
  reflexivity.
Qed.

Lemma polar_crowded_rest : skipn 100 matching = [Scenario.antipode_report].
Proof.
  rewrite polar_crowded_matching, skipn_app, polar_reports_length, Nat.sub_diag.
  rewrite skipn_all2 by (rewrite polar_reports_length; lia). reflexivity.
Qed.

Lemma polar_crowded_near_within :
  within_duplicate_radius report st Scenario.antipode_report = true.
Proof. apply within_duplicate_radius_same_place; try reflexivity. simpl. lia. Qed.
End PolarCrowdedFacts.

(** ** Submission when a distance can raise *)

(** C1 (amended).  With pairwise distinct report identifiers in the store,
    when the submitter is not rate-limited and, among the first 100
    enumerated candidates (same type, active, not expired, created within
    [duplicate_time_window_minutes]), [existing] is the first one within
    [duplicate_radius_meters], the distance being computed without
    exception for it and for the candidates enumerated before it, the call
    answers [success = true] with the identifier of [existing], the message
    announces its prior confirmations plus one, its stored confirmations go
    up by exactly one, and the collection keeps its length: nothing is
    inserted.  Nothing is said of a call in which a distance raises. *)
Theorem merge_when_distances_are_computed
    (domain_error : R -> R -> R -> R -> bool)
    (env : Env) (db : DB) (report : CommunityReportCreate.t)
    (existing : CommunityReport.t) (earlier later : list CommunityReport.t) :
  let st := get_settings db (fresh_settings_id env) in
  let candidates :=
    to_list 100 (find (duplicate_query report (now env) st) (reports db)) in
  unique_ids (reports db) ->
  (forall d, In d (reports db) -> rate_limit_query report (now env) st d = false) ->
  candidates = earlier ++ existing :: later ->
  (forall x, In x earlier ->
     merge_distance_raises domain_error report x = false
     /\ within_duplicate_radius report st x = false) ->
  merge_distance_raises domain_error report existing = false ->
  within_duplicate_radius report st existing = true ->
  exists before after,
    reports db = before ++ existing :: after
    /\ duplicate_query report (now env) st existing = true
    /\ Partial.create_report domain_error env db report =
         Returned
           (mkDB (cameras db)
              (before ++ CommunityReport.inc_confirmations existing :: after)
              (settings db),
            ReportResponse.mk true
              ("Confirmed! "
                 ++ str_of_int (CommunityReport.confirmations existing + 1)
                 ++ " users have reported this.")%string
              (Some (CommunityReport.id existing)))
    /\ CommunityReport.confirmations (CommunityReport.inc_confirmations existing)
       = CommunityReport.confirmations existing + 1
    /\ List.length (before ++ CommunityReport.inc_confirmations existing :: after)
       = List.length (reports db).
Proof.
  intros st candidates Huniq Hrl Hsplit Hpre Hok Hw.
  apply find_one_none in Hrl.
  assert (Hscan : Partial.first_duplicate domain_error report st candidates
                  = Returned (Some existing)).
  { rewrite Hsplit. now apply partial_first_duplicate_found. }
  assert (Hcand : In existing candidates) by (rewrite Hsplit; apply in_elt).
  destruct (candidate_in_store _ _ _ _ _ _ Hcand) as [Hin Hq].
  destruct (update_by_id_unique (reports db) existing
              CommunityReport.inc_confirmations Huniq Hin)
    as (before & after & Hdb & Hupd).
  exists before, after.
  split; [exact Hdb|]. split; [exact Hq|]. split; [|split].
  - unfold Partial.create_report. fold st. rewrite Hrl. fold candidates.
    rewrite Hscan, Hupd. reflexivity.
  - reflexivity.
  - rewrite Hdb, !length_app. reflexivity.
Qed.

Lemma merge_when_distances_are_computed_witness :
  Partial.create_report Scenario.antipodal_domain_error Sample.env
    Sample.db_near_only (Sample.submit_at_origin "police_check" "B")
  = Returned
      (mkDB [] [CommunityReport.inc_confirmations Sample.near_report] [],
       ReportResponse.mk true "Confirmed! 2 users have reported this."
         (Some "near")).
Proof.
  destruct (merge_when_distances_are_computed Scenario.antipodal_domain_error
              Sample.env Sample.db_near_only
              (Sample.submit_at_origin "police_check" "B")
              Sample.near_report [] [])
    as (before & after & Hdb & _ & Heq & _).
  - apply distinct_strings_NoDup. reflexivity.
  - intros d [<-|[]]. reflexivity.
  - reflexivity.
  - intros x [].
  - now apply origin_candidate_returns.
  - apply within_duplicate_radius_same_place; try reflexivity. simpl. lia.
  - rewrite Heq.
    destruct before as [|x [|y before]]; simpl in Hdb; try discriminate Hdb.
    injection Hdb as <-. reflexivity.
Defined.

(** C3.  The defect behind the failure of C3: when the submitter is not
    rate-limited and the distance computed for a candidate of the merge
    loop raises before any candidate within the radius is met, the call
    raises [ValueError]: no answer is given and no record is persisted,
    although the submission is neither rate-limited nor merged. *)
Theorem create_report_aborts_on_domain_error
    (domain_error : R -> R -> R -> R -> bool)
    (env : Env) (db : DB) (report : CommunityReportCreate.t)
    (bad : CommunityReport.t) (earlier later : list CommunityReport.t) :
  let st := get_settings db (fresh_settings_id env) in
  let candidates :=
    to_list 100 (find (duplicate_query report (now env) st) (reports db)) in
  (forall d, In d (reports db) -> rate_limit_query report (now env) st d = false) ->
  candidates = earlier ++ bad :: later ->
  (forall x, In x earlier ->
     merge_distance_raises domain_error report x = false
     /\ within_duplicate_radius report st x = false) ->
  merge_distance_raises domain_error report bad = true ->
  Partial.create_report domain_error env db report = ValueError.
Proof.
  intros st candidates Hrl Hsplit Hpre Hbad.
  apply partial_create_report_aborts.
  - now apply find_one_none.
  - fold st candidates. rewrite Hsplit.
    now apply partial_first_duplicate_aborts.
Qed.

Lemma create_report_aborts_on_domain_error_witness :
  Partial.create_report Scenario.antipodal_domain_error Sample.env
    Scenario.db_polar (Scenario.submit_at_antipode "B")
  = ValueError.
Proof.
  apply (create_report_aborts_on_domain_error Scenario.antipodal_domain_error
           Sample.env Scenario.db_polar (Scenario.submit_at_antipode "B")
           (Scenario.polar_report "polar") [] []).
  - intros d [<-|[]]. reflexivity.
  - reflexivity.
  - intros x [].
  - apply polar_candidate_raises.
Defined.

(** C10.  The defect behind the failure of C10: when the submitter is not
    rate-limited, a report within the radius is enumerated after the first
    100 candidates, and among those 100 the distance computed for one
    raises before any within the radius is met, the call raises
    [ValueError]: no new record is created. *)
Theorem capped_scan_aborts_on_domain_error
    (domain_error : R -> R -> R -> R -> bool)
    (env : Env) (db : DB) (report : CommunityReportCreate.t)
    (bad : CommunityReport.t) (earlier later : list CommunityReport.t) :
  let st := get_settings db (fresh_settings_id env) in
  let matching := find (duplicate_query report (now env) st) (reports db) in
  (forall d, In d (reports db) -> rate_limit_query report (now env) st d = false) ->
  to_list 100 matching = earlier ++ bad :: later ->
  (forall x, In x earlier ->
     merge_distance_raises domain_error report x = false
     /\ within_duplicate_radius report st x = false) ->
  merge_distance_raises domain_error report bad = true ->
  (exists d, In d (skipn 100 matching) /\ within_duplicate_radius report st d = true) ->
  Partial.create_report domain_error env db report = ValueError
  /\ (List.length (earlier ++ bad :: later) <= 100)%nat.
Proof.
  intros st matching Hrl Hsplit Hpre Hbad _.
  split; [|rewrite <- Hsplit; apply to_list_length].
  apply partial_create_report_aborts.
  - now apply find_one_none.
  - fold st matching. rewrite Hsplit.
    now apply partial_first_duplicate_aborts.
Qed.

Lemma capped_scan_aborts_on_domain_error_witness :
  Partial.create_report Scenario.antipodal_domain_error Sample.env
    Scenario.db_polar_crowded (Scenario.submit_at_antipode "B")
  = ValueError.
Proof.
  apply (capped_scan_aborts_on_domain_error Scenario.antipodal_domain_error
           Sample.env Scenario.db_polar_crowded (Scenario.submit_at_antipode "B")
           (Scenario.polar_report ("polar-" ++ str_of_int (Z.of_nat 0))%string)
           []
           (map (fun i => Scenario.polar_report
                            ("polar-" ++ str_of_int (Z.of_nat i))%string)
                (seq 1 99))).
  - apply polar_crowded_not_rate_limited.
  - apply polar_crowded_first_100.
  - intros x [].
  - apply polar_candidate_raises.
  - exists Scenario.antipode_report. split.
    + rewrite polar_crowded_rest. now left.
    + apply polar_crowded_near_within.
Defined.

(** ** Further properties when a distance can raise *)

(** X2.  Whenever [haversine_distance] returns, its result is between 0 and
    half the circumference of the sphere, 6371000 * pi metres, which is
    below 20015087.  In exact arithmetic the arguments of [math.sqrt], [a]
    and [1 - a], are never negative, so its [ValueError] can come from the
    rounding of binary64 only. *)
Theorem haversine_distance_range_when_returned
    (domain_error : R -> R -> R -> R -> bool) (lat1 lon1 lat2 lon2 d : R) :
  Partial.haversine_distance domain_error lat1 lon1 lat2 lon2 = Returned d ->
  (0 <= d <= EARTH_RADIUS * PI)%R
  /\ (EARTH_RADIUS * PI < 20015087)%R
  /\ (0 <= haversine_a lat1 lon1 lat2 lon2)%R
  /\ (0 <= 1 - haversine_a lat1 lon1 lat2 lon2)%R.
Proof.
  intros Hret. apply partial_haversine_returned in Hret as [_ ->].
  destruct (haversine_distance_range lat1 lon1 lat2 lon2) as [Hd Hpi].
  destruct (haversine_a_range lat1 lon1 lat2 lon2) as [Ha0 Ha1].
  split; [exact Hd|]. split; [exact Hpi|]. split; [exact Ha0 | lra].
Qed.

Lemma haversine_distance_range_when_returned_witness :
  (0 <= haversine_distance 0 0 0 180 <= EARTH_RADIUS * PI)%R.
Proof.
  apply (haversine_distance_range_when_returned Scenario.antipodal_domain_error
           0 0 0 180 (haversine_distance 0 0 0 180)).
  apply partial_haversine_ok. apply antipodal_domain_error_elsewhere; lra.
Defined.

(** X22.  A submission that is not rate-limited, and for which every one of
    the first 100 enumerated candidates has its distance computed without
    exception and lies outside the radius, appends one record with
    [confirmations = 1] and [expires_at = now + TTL] (mobile-camera TTL for
    ['mobile_camera'], police-check TTL otherwise) and answers with its
    identifier; candidates enumerated after the first 100 play no part. *)
Theorem new_record_when_distances_are_computed
    (domain_error : R -> R -> R -> R -> bool)
    (env : Env) (db : DB) (report : CommunityReportCreate.t) :
  let st := get_settings db (fresh_settings_id env) in
  (forall d, In d (reports db) -> rate_limit_query report (now env) st d = false) ->
  (forall d,
     In d (to_list 100 (find (duplicate_query report (now env) st) (reports db))) ->
     merge_distance_raises domain_error report d = false
     /\ within_duplicate_radius report st d = false) ->
  exists r,
    Partial.create_report domain_error env db report =
      Returned
        (mkDB (cameras db) (reports db ++ [r]) (settings db),
         ReportResponse.mk true "Reported. Thanks!" (Some (CommunityReport.id r)))
    /\ CommunityReport.id r = fresh_report_id env
    /\ CommunityReport.confirmations r = 1
    /\ CommunityReport.expires_at r =
         now env
         + (if String.eqb (CommunityReportCreate.report_type report) "mobile_camera"
            then AppSettings.mobile_camera_ttl_minutes st
            else AppSettings.police_check_ttl_minutes st) * 60000000.
Proof.
  intros st Hrl Hcand.
  exists (new_report env report st).
  rewrite partial_create_report_ok by (intros x Hx; apply (Hcand x Hx)).
  rewrite (create_report_insert_eq env db report).
  - repeat split.
  - now apply find_one_none.
  - apply first_duplicate_none. intros d Hd. apply (Hcand d Hd).
Qed.

Lemma new_record_when_distances_are_computed_witness :
  exists r,
    Partial.create_report Scenario.antipodal_domain_error Sample.env
      Sample.db_crowded (Sample.submit_at_origin "police_check" "B")
    = Returned
        (mkDB [] (reports Sample.db_crowded ++ [r]) [],
         ReportResponse.mk true "Reported. Thanks!" (Some (CommunityReport.id r)))
    /\ CommunityReport.expires_at r = 600000000 + 52 * 60000000.
Proof.
  destruct (new_record_when_distances_are_computed Scenario.antipodal_domain_error
              Sample.env Sample.db_crowded
              (Sample.submit_at_origin "police_check" "B"))
    as (r & Heq & _ & _ & He).
  - apply crowded_not_rate_limited.
  - intros d Hd. split.
    + now apply origin_candidate_returns.
    + now apply crowded_first_100_far.
  - exists r. split; [exact Heq | exact He].
Defined.

(** X6.  New settings are in force for the very next submission: when that
    submission is not rate-limited and every one of the first 100
    candidates has its distance computed without exception and lies outside
    the radius, the report it creates expires after the TTL of the settings
    just stored. *)
Theorem new_settings_apply_when_distances_are_computed
    (domain_error : R -> R -> R -> R -> bool)
    (env : Env) (db : DB) (s : AppSettings.t) (report : CommunityReportCreate.t) :
  let db' := fst (update_settings db s) in
  (forall d, In d (reports db) -> rate_limit_query report (now env) s d = false) ->
  (forall d,
     In d (to_list 100 (find (duplicate_query report (now env) s) (reports db))) ->
     merge_distance_raises domain_error report d = false
     /\ within_duplicate_radius report s d = false) ->
  exists r,
    Partial.create_report domain_error env db' report
    = Returned
        (mkDB (cameras db) (reports db ++ [r]) (settings db'),
         ReportResponse.mk true "Reported. Thanks!" (Some (fresh_report_id env)))
    /\ CommunityReport.expires_at r =
         now env
         + (if String.eqb (CommunityReportCreate.report_type report) "mobile_camera"
            then AppSettings.mobile_camera_ttl_minutes s
            else AppSettings.police_check_ttl_minutes s) * 60000000.
Proof.
  intros db' Hrl Hcand.
  destruct (new_settings_apply_to_next_report env db s report Hrl
              (fun d Hd => proj2 (Hcand d Hd)))
    as (r & Heq & He).
  assert (Hst : get_settings db' (fresh_settings_id env) = s)
    by apply get_settings_after_update.
  exists r. split; [|exact He]. fold db' in Heq. rewrite <- Heq.
  apply partial_create_report_ok. cbv zeta. rewrite Hst.
  change (reports db') with (reports db).
  intros x Hx. apply (Hcand x Hx).
Qed.

Lemma new_settings_apply_when_distances_are_computed_witness :
  exists r,
    Partial.create_report Scenario.antipodal_domain_error Sample.env
      (fst (update_settings Sample.db_near_only Scenario.short_ttl))
      (Scenario.submit_in_london "mobile_camera" "B")
    = Returned
        (mkDB [] [Sample.near_report; r] [Scenario.short_ttl],
         ReportResponse.mk true "Reported. Thanks!" (Some "new-1"))
    /\ CommunityReport.expires_at r = 600000000 + 10 * 60000000.
Proof.
  destruct (new_settings_apply_when_distances_are_computed
              Scenario.antipodal_domain_error Sample.env Sample.db_near_only
              Scenario.short_ttl (Scenario.submit_in_london "mobile_camera" "B"))
    as (r & Heq & He).
  - intros d [<-|[]]. reflexivity.
  - intros d [].
  - exists r. split; [exact Heq | exact He].
Defined.

(** X10.  An active camera that passes the bounding-box filter and lies
    within the radius is returned, with its rounded distance, as long as at
    most 1000 stored cameras pass the filter and the distance of every one
    of them is computed without exception. *)
Theorem nearby_camera_is_found_when_distances_are_computed
    (domain_error : R -> R -> R -> R -> bool)
    (lat lon radius_km : R) (db : DB) (cam : SpeedCamera.t) :
  let bbox := get_bounding_box lat lon radius_km in
  In cam (cameras db) ->
  SpeedCamera.is_active cam = true ->
  in_box bbox (SpeedCamera.latitude cam) (SpeedCamera.longitude cam) = true ->
  (camera_distance lat lon cam <= radius_km * 1000)%R ->
  (List.length (find (camera_box_query bbox) (cameras db)) <= 1000)%nat ->
  (forall c, In c (find (camera_box_query bbox) (cameras db)) ->
     camera_distance_raises domain_error lat lon c = false) ->
  exists result,
    Partial.get_nearby_cameras domain_error lat lon radius_km db = Returned result
    /\ In (mkNearbyCamera cam (py_round (camera_distance lat lon cam))) result.
Proof.
  intros bbox Hin Hact Hbox Hd Hcap Hok.
  exists (get_nearby_cameras lat lon radius_km db). split.
  - apply partial_get_nearby_cameras_ok. intros c Hc.
    apply Hok. now apply to_list_in in Hc.
  - now apply nearby_camera_is_found.
Qed.

Lemma nearby_camera_is_found_when_distances_are_computed_witness :
  exists result,
    Partial.get_nearby_cameras Scenario.antipodal_domain_error 0 0 1
      Sample.db_two_cameras = Returned result
    /\ In (mkNearbyCamera (Sample.camera_at_origin "cam-2")
             (py_round (camera_distance 0 0 (Sample.camera_at_origin "cam-2"))))
          result.
Proof.
  apply (nearby_camera_is_found_when_distances_are_computed
           Scenario.antipodal_domain_error 0 0 1 Sample.db_two_cameras
           (Sample.camera_at_origin "cam-2")).
  - simpl. right. now left.
  - reflexivity.
  - change (in_box (get_bounding_box 0 0 1) 0 0 = true).
    apply in_box_center; lra.
  - unfold camera_distance, Sample.camera_at_origin.
    cbn [SpeedCamera.latitude SpeedCamera.longitude].
    rewrite haversine_distance_same. lra.
  - eapply Nat.le_trans; [apply filter_length_le|].
    apply Nat.leb_le. reflexivity.
  - intros c _. unfold camera_distance_raises.
    apply antipodal_domain_error_elsewhere; lra.
Defined.

(** X18.  After a submission that created a record, a submission of the
    same type at the same coordinate that is not rate-limited confirms that
    record: the answer is "Confirmed! 2 users have reported this." with the
    identifier of the record, whose confirmations become 2, and nothing is
    inserted.  This holds provided the record is still live and inside the
    duplicate window, the radius is not negative, its identifier was not
    stored before, the older candidates are fewer than 100 and all outside
    the radius, and every distance computed by the two calls is computed
    without exception. *)
Theorem second_submitter_confirms_when_distances_are_computed
    (domain_error : R -> R -> R -> R -> bool)
    (env1 env2 : Env) (db : DB) (report report2 : CommunityReportCreate.t) :
  let st1 := get_settings db (fresh_settings_id env1) in
  let st2 := get_settings db (fresh_settings_id env2) in
  let fresh := new_report env1 report st1 in
  let db1 := mkDB (cameras db) (reports db ++ [fresh]) (settings db) in
  let older := find (duplicate_query report2 (now env2) st2) (reports db) in
  (forall d, In d (reports db) -> rate_limit_query report (now env1) st1 d = false) ->
  (forall d,
     In d (to_list 100 (find (duplicate_query report (now env1) st1) (reports db))) ->
     merge_distance_raises domain_error report d = false
     /\ within_duplicate_radius report st1 d = false) ->
  CommunityReportCreate.report_type report2
  = CommunityReportCreate.report_type report ->
  CommunityReportCreate.latitude report2 = CommunityReportCreate.latitude report ->
  CommunityReportCreate.longitude report2 = CommunityReportCreate.longitude report ->
  (forall d, In d (reports db1) -> rate_limit_query report2 (now env2) st2 d = false) ->
  now env2 < now env1 + ttl_minutes report st1 * 60000000 ->
  now env2 - AppSettings.duplicate_time_window_minutes st2 * 60000000
    <= fresh_created_at env1 ->
  0 <= AppSettings.duplicate_radius_meters st2 ->
  (forall d, In d older ->
     merge_distance_raises domain_error report2 d = false
     /\ within_duplicate_radius report2 st2 d = false) ->
  merge_distance_raises domain_error report2 fresh = false ->
  (List.length older < 100)%nat ->
  ~ In (fresh_report_id env1) (map CommunityReport.id (reports db)) ->
  Partial.create_report domain_error env1 db report
  = Returned
      (db1, ReportResponse.mk true "Reported. Thanks!" (Some (fresh_report_id env1)))
  /\ Partial.create_report domain_error env2 db1 report2
     = Returned
         (mkDB (cameras db)
            (reports db ++ [CommunityReport.inc_confirmations fresh])
            (settings db),
          ReportResponse.mk true "Confirmed! 2 users have reported this."
            (Some (fresh_report_id env1)))
  /\ CommunityReport.confirmations (CommunityReport.inc_confirmations fresh) = 2.
Proof.
  intros st1 st2 fresh db1 older Hrl Hcand Ht Hlat Hlon Hrl2 Hlive Hwin Hrad
    Hold Hfresh_ok Hcap Hnew.
  assert (Hrl' : find_one (rate_limit_query report (now env1) st1) (reports db) = None)
    by now apply find_one_none.
  assert (Hdup' : first_duplicate report st1
            (to_list 100 (find (duplicate_query report (now env1) st1) (reports db)))
            = None).
  { apply first_duplicate_none. intros d Hd. apply (Hcand d Hd). }
  assert (Hfirst : create_report env1 db report
            = (db1, ReportResponse.mk true "Reported. Thanks!"
                      (Some (fresh_report_id env1)))).
  { now rewrite (create_report_insert_eq env1 db report Hrl' Hdup'). }
  assert (Hdb1 : fst (create_report env1 db report) = db1) by now rewrite Hfirst.
  split; [|split; [|reflexivity]].
  - rewrite partial_create_report_ok by (intros x Hx; apply (Hcand x Hx)).
    now rewrite Hfirst.
  - destruct (second_submitter_confirms env1 env2 db report report2)
      as [Hsecond _]; try assumption.
    + fold st2. rewrite Hdb1. exact Hrl2.
    + intros d Hd. apply (Hold d Hd).
    + rewrite Hdb1 in Hsecond. fold st1 fresh in Hsecond. rewrite <- Hsecond.
      apply partial_create_report_ok.
      change (get_settings db1 (fresh_settings_id env2)) with st2.
      intros x Hx. apply to_list_in, find_in in Hx as [Hx Hq].
      cbn [reports db1] in Hx. apply in_app_or in Hx as [Hx|[<-|[]]].
      * apply (Hold x). apply find_in. now split.
      * exact Hfresh_ok.
Qed.

Lemma london_candidate_returns (rtype uid : string) (existing : CommunityReport.t) :
  merge_distance_raises Scenario.antipodal_domain_error
    (Scenario.submit_in_london rtype uid) existing = false.
Proof.
  unfold merge_distance_raises. apply antipodal_domain_error_elsewhere; simpl; lra.
Qed.

Lemma second_submitter_confirms_when_distances_are_computed_witness :
  Partial.create_report Scenario.antipodal_domain_error Scenario.env_later
    (mkDB []
       [Sample.near_report;
        CommunityReport.mk "new-1" 51.5%R (-0.12)%R "mobile_camera" "A" 1
          600000001 5100000000 true] [])
    (Scenario.submit_in_london "mobile_camera" "B")
  = Returned
      (mkDB []
         [Sample.near_report;
          CommunityReport.mk "new-1" 51.5%R (-0.12)%R "mobile_camera" "A" 2
            600000001 5100000000 true] [],
       ReportResponse.mk true "Confirmed! 2 users have reported this."
         (Some "new-1")).
Proof.
  destruct (second_submitter_confirms_when_distances_are_computed
              Scenario.antipodal_domain_error Sample.env Scenario.env_later
              Sample.db_near_only
              (Scenario.submit_in_london "mobile_camera" "A")
              (Scenario.submit_in_london "mobile_camera" "B"))
    as (_ & Hsecond & _).
  - intros d [<-|[]]. reflexivity.
  - intros d [].
  - reflexivity.
  - reflexivity.
  - reflexivity.
  - intros d [<-|[<-|[]]]; reflexivity.
  - simpl. lia.
  - simpl. lia.
  - simpl. lia.
  - intros d [].
  - apply london_candidate_returns.
  - simpl. lia.
  - simpl. intros [H|[]]. discriminate H.
  - exact Hsecond.
Defined.

(** X19.  A merge leaves no trace of the submitter: after a submission
    that was merged into a stored report, the rate-limit lookup for the same
    submitter still finds nothing, at that moment or later, so the same
    submission sent again is never refused: whenever the second call
    returns, it answers [success = true]. *)
Theorem merged_submitter_is_never_refused
    (domain_error : R -> R -> R -> R -> bool)
    (env env2 : Env) (db : DB) (report : CommunityReportCreate.t)
    (existing : CommunityReport.t) :
  let st := get_settings db (fresh_settings_id env) in
  let db1 := fst (create_report env db report) in
  find_one (rate_limit_query report (now env) st) (reports db) = None ->
  Partial.first_duplicate domain_error report st
    (to_list 100 (find (duplicate_query report (now env) st) (reports db)))
  = Returned (Some existing) ->
  now env <= now env2 ->
  Partial.create_report domain_error env db report
  = Returned
      (db1,
       ReportResponse.mk true
         (confirmed_message (CommunityReport.confirmations existing + 1))
         (Some (CommunityReport.id existing)))
  /\ find_one (rate_limit_query report (now env2)
                 (get_settings db1 (fresh_settings_id env2)))
       (reports db1) = None
  /\ (forall r,
        Partial.create_report domain_error env2 db1 report = Returned r ->
        ReportResponse.success (snd r) = true).
Proof.
  intros st db1 Hrl Hscan Hle.
  pose proof (partial_first_duplicate_returned _ _ _ _ _ Hscan) as Hdup.
  symmetry in Hdup. fold st in Hdup.
  destruct (merged_submitter_is_not_rate_limited env env2 db report existing
              Hrl Hdup Hle) as [Hnone Hsucc].
  fold db1 in Hnone, Hsucc.
  split; [|split; [exact Hnone|]].
  - rewrite (partial_create_report_of_scan domain_error env db report _ Hscan).
    unfold db1. now rewrite (create_report_merge_eq env db report existing Hrl Hdup).
  - intros r Hr. apply partial_create_report_returned in Hr. now rewrite Hr.
Qed.

Lemma merged_submitter_is_never_refused_witness :
  Partial.create_report Scenario.antipodal_domain_error Sample.env
    Sample.db_near_only (Sample.submit_at_origin "police_check" "B")
  = Returned
      (mkDB [] [CommunityReport.inc_confirmations Sample.near_report] [],
       ReportResponse.mk true "Confirmed! 2 users have reported this."
         (Some "near"))
  /\ find_one
       (rate_limit_query (Sample.submit_at_origin "police_check" "B")
          (now Scenario.env_later)
          (get_settings
             (mkDB [] [CommunityReport.inc_confirmations Sample.near_report] [])
             (fresh_settings_id Scenario.env_later)))
       [CommunityReport.inc_confirmations Sample.near_report]
     = None.
Proof.
  assert (Hw : within_duplicate_radius (Sample.submit_at_origin "police_check" "B")
                 (get_settings Sample.db_near_only (fresh_settings_id Sample.env))
                 Sample.near_report = true).
  { apply within_duplicate_radius_same_place; try reflexivity. simpl. lia. }
  assert (Hdb1 : fst (create_report Sample.env Sample.db_near_only
                        (Sample.submit_at_origin "police_check" "B"))
                 = mkDB [] [CommunityReport.inc_confirmations Sample.near_report] []).
  { unfold create_report.
    change (find_one _ (reports Sample.db_near_only)) with (@None CommunityReport.t).
    change (to_list 100 _) with [Sample.near_report].
    cbn [first_duplicate]. rewrite Hw. reflexivity. }
  destruct (merged_submitter_is_never_refused Scenario.antipodal_domain_error
              Sample.env Scenario.env_later Sample.db_near_only
              (Sample.submit_at_origin "police_check" "B") Sample.near_report)
    as (Hfirst & Hnone & _).
  - reflexivity.
  - change (Partial.first_duplicate Scenario.antipodal_domain_error
              (Sample.submit_at_origin "police_check" "B")
              (get_settings Sample.db_near_only (fresh_settings_id Sample.env))
              ([] ++ Sample.near_report :: [])
            = Returned (Some Sample.near_report)).
    apply partial_first_duplicate_found.
    + intros x [].
    + now apply origin_candidate_returns.
    + exact Hw.
  - simpl. lia.
  - rewrite Hdb1 in Hfirst, Hnone. split; [exact Hfirst | exact Hnone].
Defined.

(** X20.  A record created by a submission whose latitude is in [-90, 90]
    is returned by a report query centred at the submitted coordinate, with
    distance 0 and its rounded remaining minutes, for every radius that is
    not negative and every time before its expiry, as long as fewer than 500
    reports were stored before and every distance computed by the
    submission and by the query is computed without exception. *)
Theorem created_report_is_visible_when_distances_are_computed
    (domain_error : R -> R -> R -> R -> bool)
    (env : Env) (db : DB) (report : CommunityReportCreate.t)
    (radius_km : R) (now2 : datetime) :
  let st := get_settings db (fresh_settings_id env) in
  let fresh := new_report env report st in
  let db1 := mkDB (cameras db) (reports db ++ [fresh]) (settings db) in
  let lat := CommunityReportCreate.latitude report in
  let lon := CommunityReportCreate.longitude report in
  let expiry := now env + ttl_minutes report st * 60000000 in
  (forall d, In d (reports db) -> rate_limit_query report (now env) st d = false) ->
  (forall d,
     In d (to_list 100 (find (duplicate_query report (now env) st) (reports db))) ->
     merge_distance_raises domain_error report d = false
     /\ within_duplicate_radius report st d = false) ->
  (-90 <= lat <= 90)%R ->
  (0 <= radius_km)%R ->
  now2 < expiry ->
  (List.length (reports db) < 500)%nat ->
  (forall r, In r (reports db1) -> report_distance_raises domain_error lat lon r = false) ->
  exists result,
    Partial.create_report domain_error env db report
    = Returned
        (db1, ReportResponse.mk true "Reported. Thanks!" (Some (fresh_report_id env)))
    /\ Partial.get_nearby_reports domain_error lat lon radius_km now2 db1
       = Returned result
    /\ In (mkNearbyReport fresh 0 (round_minutes (expiry - now2))) result.
Proof.
  intros st fresh db1 lat lon expiry Hrl Hcand Hlat Hr Hlive Hcap Hok.
  assert (Hrl' : find_one (rate_limit_query report (now env) st) (reports db) = None)
    by now apply find_one_none.
  assert (Hdup' : first_duplicate report st
            (to_list 100 (find (duplicate_query report (now env) st) (reports db)))
            = None).
  { apply first_duplicate_none. intros d Hd. apply (Hcand d Hd). }
  assert (Hfirst : create_report env db report
            = (db1, ReportResponse.mk true "Reported. Thanks!"
                      (Some (fresh_report_id env)))).
  { now rewrite (create_report_insert_eq env db report Hrl' Hdup'). }
  exists (get_nearby_reports lat lon radius_km now2 db1).
  split; [|split].
  - rewrite partial_create_report_ok by (intros x Hx; apply (Hcand x Hx)).
    now rewrite Hfirst.
  - apply partial_get_nearby_reports_ok. intros r Hin.
    apply Hok. now apply to_list_in, find_in in Hin as [Hin _].
  - pose proof (created_report_is_visible env db report radius_km now2
                  Hrl' Hdup' Hlat Hr Hlive Hcap) as Hvis.
    rewrite Hfirst in Hvis. exact Hvis.
Qed.

Lemma created_report_is_visible_when_distances_are_computed_witness :
  exists result,
    Partial.get_nearby_reports Scenario.antipodal_domain_error 51.5 (-0.12) 5
      660000000
      (mkDB []
         [Sample.near_report;
          CommunityReport.mk "new-1" 51.5%R (-0.12)%R "mobile_camera" "A" 1
            600000001 5100000000 true] [])
    = Returned result
    /\ In (mkNearbyReport
             (CommunityReport.mk "new-1" 51.5%R (-0.12)%R "mobile_camera" "A" 1
                600000001 5100000000 true)
             0 74)
          result.
Proof.
  destruct (created_report_is_visible_when_distances_are_computed
              Scenario.antipodal_domain_error Sample.env Sample.db_near_only
              (Scenario.submit_in_london "mobile_camera" "A") 5 660000000)
    as (result & _ & Hq & Hin).
  - intros d [<-|[]]. reflexivity.
  - intros d [].
  - simpl. lra.
  - lra.
  - simpl. lia.
  - simpl. lia.
  - intros r _. unfold report_distance_raises.
    apply antipodal_domain_error_elsewhere; simpl; lra.
  - exists result. split; [exact Hq | exact Hin].
Defined.
